(** * obsidian-note-structure: notes to JSON records, vault flattening

    A shallow embedding of [src/main.py] and [src/lambda.py].

    - [Py], [Num]  the Python built-ins the two files call (str methods,
                   [os.path], [int], [str]), on byte strings;
    - [Datetime], [Strptime]
                   the part of [datetime] the code uses: [fromtimestamp],
                   [min], [strftime] with the two formats of the source, and
                   [strptime] with the one format of the weekly rule;
    - [Fs]         the working directory as a tree of named entries, the
                   files carrying their [os.stat] times and what [f.read()]
                   returns;
    - [Flatten]    the prune, convert and collapse loops;
    - [Lambda], [Main], [LambdaS3]
                   the functions of the two source files, kept apart as the
                   source keeps them;
    - the properties: date inference tier by tier, the [path] and [folder]
      keys, the three passes, the two entry points, the archive chosen and
      the keys uploaded. *)

From Stdlib Require Import String Ascii List ZArith Lia Bool Arith.
Import ListNotations.
Set Warnings "-register-all".
Local Open Scope string_scope.
Local Open Scope list_scope.

(** ** Exceptions and results *)

(** The exceptions the modelled calls can raise. *)
Inductive exn : Type :=
| IndexError            (* list index out of range *)
| ValueError            (* unpacking, int(), strptime, min() of nothing *)
| AttributeError        (* missing st_birthtime, .year of a tuple *)
| FileNotFoundError
| IsADirectoryError
| NotADirectoryError
| UnicodeDecodeError
| OSError               (* a refused open or a failed write *)
| ShutilError.          (* shutil.Error: destination path already exists *)

Inductive result (A : Type) : Type :=
| Ok (a : A)
| Raise (e : exn).
Arguments Ok {A} a.
Arguments Raise {A} e.

Definition bind {A B} (r : result A) (k : A -> result B) : result B :=
  match r with
  | Ok a => k a
  | Raise e => Raise e
  end.

Notation "x <- c ;; k" := (bind c (fun x => k))
  (at level 61, c at next level, right associativity).

Definition is_ok {A} (r : result A) : bool :=
  match r with Ok _ => true | Raise _ => false end.

(** ** Python built-ins on strings *)

Module Py.

(** [s.startswith(p)] *)
Definition startswith (s p : string) : bool := String.prefix p s.

(** [p in s] for strings: [p] occurs in [s] as a substring. *)
Fixpoint contains (p s : string) : bool :=
  String.prefix p s ||
  match s with
  | EmptyString => false
  | String _ s' => contains p s'
  end.

(** [s.endswith(p)] *)
Definition endswith (s p : string) : bool :=
  let n := String.length s in
  let m := String.length p in
  Nat.leb m n && String.eqb (String.substring (n - m) m s) p.

(** [s.removesuffix(p)] *)
Definition removesuffix (s p : string) : string :=
  if endswith s p && negb (String.eqb p "")
  then String.substring 0 (String.length s - String.length p) s
  else s.

(** [s.split(sep)] for a non-empty [sep]: cut at each occurrence of [sep],
    leftmost first, occurrences not overlapping.  [skip] counts the
    characters of a separator still to be dropped, [cur] is the piece being
    read. *)
Fixpoint split_go (sep : string) (skip : nat) (cur s : string) : list string :=
  match s with
  | EmptyString => [cur]
  | String c s' =>
      match skip with
      | S k => split_go sep k cur s'
      | O =>
          if String.prefix sep s
          then cur :: split_go sep (String.length sep - 1) "" s'
          else split_go sep 0 (cur ++ String c "") s'
      end
  end.

Definition split (s sep : string) : list string := split_go sep 0 "" s.

(** [sep.join(l)] *)
Definition join (sep : string) (l : list string) : string := String.concat sep l.

(** [l[1]] *)
Definition index1 (l : list string) : result string :=
  match l with
  | _ :: x :: _ => Ok x
  | _ => Raise IndexError
  end.

(** [l[0]] and [l[-1]]; the lists they are applied to come from [split] and
    are never empty, so the default is not reached. *)
Definition index0 (l : list string) : string := hd "" l.
Definition index_last (l : list string) : string := last l "".

(** [l[1:-1]] *)
Definition slice_1_m1 (l : list string) : list string := removelast (tl l).

(** [l[1:]] *)
Definition slice_1 (l : list string) : list string := tl l.

(** [s[s.rfind("/") + 1:]]: what follows the last slash of [s], all of [s]
    when it has none. *)
Fixpoint after_last_slash (s : string) : string :=
  match s with
  | EmptyString => EmptyString
  | String c s' =>
      if contains "/" s' then after_last_slash s'
      else if Ascii.eqb c "/" then s' else s
  end.

(** [os.path.basename(p)] (posixpath): what follows the last slash. *)
Definition basename (p : string) : string := after_last_slash p.

(** [s.rstrip("/")] *)
Fixpoint rstrip_slash (s : string) : string :=
  match s with
  | EmptyString => EmptyString
  | String c s' =>
      match rstrip_slash s' with
      | EmptyString => if Ascii.eqb c "/" then EmptyString else String c EmptyString
      | r => String c r
      end
  end.

(** [os.path.dirname(p)] (posixpath): the part up to and including the last
    slash, its trailing slashes removed unless it consists of slashes
    only. *)
Definition dirname (p : string) : string :=
  let head := String.substring 0 (String.length p - String.length (basename p)) p in
  match rstrip_slash head with
  | EmptyString => head
  | r => r
  end.

(** [os.path.join(a, b)] (posixpath) for two components. *)
Definition path_join (a b : string) : string :=
  if startswith b "/" then b
  else if String.eqb a "" || endswith a "/" then a ++ b
  else a ++ "/" ++ b.

End Py.

(** ** Decimal numerals *)

Module Num.
Local Open Scope Z_scope.

Definition is_digit (c : ascii) : bool :=
  let n := nat_of_ascii c in Nat.leb 48 n && Nat.leb n 57.

Definition digit_val (c : ascii) : Z := Z.of_nat (nat_of_ascii c - 48)%nat.

Definition digit_char (d : Z) : ascii := ascii_of_nat (48 + Z.to_nat (d mod 10))%nat.

(** The characters [int()] strips from both ends. *)
Definition is_space (c : ascii) : bool :=
  let n := nat_of_ascii c in
  Nat.eqb n 32 || (Nat.leb 9 n && Nat.leb n 13) || (Nat.leb 28 n && Nat.leb n 31).

Fixpoint lstrip (s : string) : string :=
  match s with
  | String c s' => if is_space c then lstrip s' else s
  | EmptyString => EmptyString
  end.

Fixpoint rstrip (s : string) : string :=
  match s with
  | EmptyString => EmptyString
  | String c s' =>
      match rstrip s' with
      | EmptyString => if is_space c then EmptyString else String c EmptyString
      | r => String c r
      end
  end.

(** Digits with single underscores between them; [us] tells that a digit
    must come next. *)
Fixpoint int_digits (acc : Z) (us : bool) (s : string) : option Z :=
  match s with
  | EmptyString => if us then None else Some acc
  | String c s' =>
      if is_digit c then int_digits (acc * 10 + digit_val c) false s'
      else if Ascii.eqb c "_" then (if us then None else int_digits acc true s')
      else None
  end.

(** [int(s)] for a string: surrounding white space, an optional sign,
    decimal digits.  Strings are byte strings here, so digits outside ASCII,
    which Python accepts, are not. *)
Definition py_int (s : string) : result Z :=
  let body := rstrip (lstrip s) in
  let r :=
    match body with
    | String "-" d => option_map Z.opp (int_digits 0 true d)
    | String "+" d => int_digits 0 true d
    | d => int_digits 0 true d
    end in
  match r with
  | Some z => Ok z
  | None => Raise ValueError
  end.

(** [str(n)] of a non-negative number below [10^k], most significant digit
    first, without padding. *)
Fixpoint nat_digits (fuel : nat) (n : Z) (acc : string) : string :=
  match fuel with
  | O => acc
  | S f =>
      let acc' := String (digit_char n) acc in
      if n <? 10 then acc' else nat_digits f (n / 10) acc'
  end.

(** [str(z)] for an integer. *)
Definition py_str (z : Z) : string :=
  if z <? 0 then String "-" (nat_digits (S (Z.to_nat (Z.log2 (- z)))) (- z) "")
  else nat_digits (S (Z.to_nat (Z.log2 z))) z "".

(** Zero-padded fields of [strftime]. *)
Definition pad2 (z : Z) : string :=
  String (digit_char (z / 10)) (String (digit_char z) "").

Definition pad4 (z : Z) : string :=
  String (digit_char (z / 1000)) (String (digit_char (z / 100)) (pad2 z)).

End Num.

(** ** The datetime library *)

Module Datetime.
Local Open Scope Z_scope.

Record datetime : Type := mkDatetime {
  year : Z; month : Z; day : Z;
  hour : Z; minute : Z; second : Z
}.

Definition isleap (y : Z) : bool :=
  (y mod 4 =? 0) && (negb (y mod 100 =? 0) || (y mod 400 =? 0)).

(** Days from 1970-01-01 to the given date of the proleptic Gregorian
    calendar; [date.toordinal()] is this plus 719163. *)
Definition days_from_civil (y m d : Z) : Z :=
  let y' := if m <=? 2 then y - 1 else y in
  let era := y' / 400 in
  let yoe := y' - era * 400 in
  let mp := if m <=? 2 then m + 9 else m - 3 in
  let doy := (153 * mp + 2) / 5 + d - 1 in
  let doe := yoe * 365 + yoe / 4 - yoe / 100 + doy in
  era * 146097 + doe - 719468.

(** The inverse: [date.fromordinal]. *)
Definition civil_from_days (z : Z) : Z * Z * Z :=
  let z' := z + 719468 in
  let era := z' / 146097 in
  let doe := z' - era * 146097 in
  let yoe := (doe - doe / 1460 + doe / 36524 - doe / 146096) / 365 in
  let doy := doe - (365 * yoe + yoe / 4 - yoe / 100) in
  let mp := (5 * doy + 2) / 153 in
  let d := doy - (153 * mp + 2) / 5 + 1 in
  let m := if mp <? 10 then mp + 3 else mp - 9 in
  let y := yoe + era * 400 in
  (if m <=? 2 then y + 1 else y, m, d).

(** [date.weekday()]: Monday is 0.  1970-01-01 was a Thursday. *)
Definition weekday_of_days (z : Z) : Z := (z + 3) mod 7.

(** [datetime.fromtimestamp(t)] in a zone [tz] seconds east of UTC; [t] in
    whole seconds. *)
Definition fromtimestamp (tz t : Z) : datetime :=
  let l := t + tz in
  let '(y, m, d) := civil_from_days (l / 86400) in
  let s := l mod 86400 in
  mkDatetime y m d (s / 3600) (s mod 3600 / 60) (s mod 60).

(** The order of datetimes is that of their fields, compared from the year
    down; this key is monotone in it. *)
Definition key (d : datetime) : Z :=
  days_from_civil (year d) (month d) (day d) * 86400
  + hour d * 3600 + minute d * 60 + second d.

(** [min(l)]: the first of the smallest elements; [ValueError] on an empty
    list. *)
Fixpoint min_from (best : datetime) (l : list datetime) : datetime :=
  match l with
  | [] => best
  | d :: tl => min_from (if key d <? key best then d else best) tl
  end.

Definition py_min (l : list datetime) : result datetime :=
  match l with
  | [] => Raise ValueError
  | d :: tl => Ok (min_from d tl)
  end.

(** [d.strftime("%Y-%m-%d")].  The year is written with four digits, which
    is what every platform does from year 1000 on. *)
Definition strftime_ymd (d : datetime) : string :=
  (Num.pad4 (year d) ++ "-" ++ Num.pad2 (month d) ++ "-" ++ Num.pad2 (day d))%string.

(** [d.strftime("%Y-%m-%d %H:%M:%S")] *)
Definition strftime_ymd_hms (d : datetime) : string :=
  (strftime_ymd d ++ " " ++ Num.pad2 (hour d) ++ ":" ++ Num.pad2 (minute d)
     ++ ":" ++ Num.pad2 (second d))%string.

End Datetime.

(** *** [datetime.strptime(data, "%Y-W%W-%w")]

    The library turns the format into the regular expression
    [(?P<Y>\d\d\d\d)-W(?P<W>5[0-3]|[0-4]\d|\d)-(?P<w>[0-6])], matches it at
    the start of the data ignoring case, and refuses data that goes on after
    the match. *)

Module Strptime.
Import Datetime.
Local Open Scope Z_scope.

Definition in_range (lo hi : nat) (c : ascii) : bool :=
  let n := nat_of_ascii c in Nat.leb lo n && Nat.leb n hi.

(** [-(?P<w>[0-6])] at the head of [s]: the value of [w] and what is left. *)
Definition match_w (s : string) : option (Z * string) :=
  match s with
  | String "-" (String w rest) =>
      if in_range 48 54 w then Some (Num.digit_val w, rest) else None
  | _ => None
  end.

(** The alternatives of [%W], tried in the order of the expression; an
    alternative is kept when the rest of the expression matches after it. *)
Definition match_W_w (s : string) : option (Z * Z * string) :=
  let alt (wk : Z) (k : string) :=
    match match_w k with
    | Some (w, rest) => Some (wk, w, rest)
    | None => None
    end in
  let alt1 :=
    match s with
    | String "5" (String d k) =>
        if in_range 48 51 d then alt (50 + Num.digit_val d) k else None
    | _ => None
    end in
  let alt2 :=
    match s with
    | String d1 (String d2 k) =>
        if in_range 48 52 d1 && Num.is_digit d2
        then alt (10 * Num.digit_val d1 + Num.digit_val d2) k else None
    | _ => None
    end in
  let alt3 :=
    match s with
    | String d k => if Num.is_digit d then alt (Num.digit_val d) k else None
    | _ => None
    end in
  match alt1 with
  | Some r => Some r
  | None => match alt2 with Some r => Some r | None => alt3 end
  end.

(** The groups [Y], [W] and [w] of the data. *)
Definition parse (data : string) : result (Z * Z * Z) :=
  match data with
  | String a (String b (String c (String d (String "-" (String l k))))) =>
      if Num.is_digit a && Num.is_digit b && Num.is_digit c && Num.is_digit d
         && (Ascii.eqb l "W" || Ascii.eqb l "w")
      then
        match match_W_w k with
        | Some (wk, w, EmptyString) =>
            Ok (1000 * Num.digit_val a + 100 * Num.digit_val b
                + 10 * Num.digit_val c + Num.digit_val d, wk, w)
        | _ => Raise ValueError
        end
      else Raise ValueError
  | _ => Raise ValueError
  end.

(** [_calc_julian_from_U_or_W] with the week starting on Monday: the day of
    the year, 1 for the first of January, of the given week and weekday.
    Week 0 is made of the days before the first Monday. *)
Definition calc_julian_from_W (y week_of_year day_of_week : Z) : Z :=
  let first_weekday := weekday_of_days (days_from_civil y 1 1) in
  let week_0_length := (7 - first_weekday) mod 7 in
  if week_of_year =? 0 then 1 + day_of_week - first_weekday
  else 1 + (week_0_length + 7 * (week_of_year - 1)) + day_of_week.

(** The datetime [strptime] returns: midnight of the day found.  Years are
    1 to 9999. *)
Definition strptime_Y_W_w (data : string) : result datetime :=
  g <- parse data ;;
  let '(y, wk, w) := g in
  if y <? 1 then Raise ValueError else
  let weekday := if w =? 0 then 6 else w - 1 in
  let julian := calc_julian_from_W y wk weekday in
  let y' := if julian <=? 0 then y - 1 else y in
  let julian' :=
    if julian <=? 0 then julian + (if isleap (y - 1) then 366 else 365)
    else julian in
  if y' <? 1 then Raise ValueError else
  let '(ry, rm, rd) := civil_from_days (julian' - 1 + days_from_civil y' 1 1) in
  if 9999 <? ry then Raise ValueError
  else Ok (mkDatetime ry rm rd 0 0 0).

End Strptime.

(** ** The working directory *)

(** What [os.stat] reports of a file, in whole seconds since the epoch.
    [st_birthtime] is absent on platforms that do not record it. *)
Record stat : Type := mkStat {
  st_ctime : Z;
  st_mtime : Z;
  st_atime : Z;
  st_birthtime : option Z
}.

(** The dictionary [note_to_json] builds, key by key. *)
Record NoteRecord : Type := mkNoteRecord {
  title : string;
  created_date : string;
  modified_date : string;
  modified_time : string;
  path : string;
  folder : string;
  content : string
}.

(** What a file holds: text as [f.read()] returns it (decoded, line ends
    already translated), bytes that do not decode, or the document
    [json.dump] wrote for a record. *)
Inductive fdata : Type :=
| Text (s : string)
| Undecodable
| JsonDoc (r : NoteRecord).

Record file : Type := mkFile { f_stat : stat; f_data : fdata }.

(** A directory lists its entries in the order the system reports them,
    which is the order [os.walk], [os.listdir] and [rglob] go by. *)
Inductive node : Type :=
| File (f : file)
| Dir (entries : list (string * node)).

Definition entries := list (string * node).

(** How the write of one file goes. *)
Inductive fault : Type :=
| NoFault
| OpenFails                      (* open(..., "w") raises, nothing changes *)
| WriteFails (written : string). (* the file is opened, the dump raises
                                    after [written] has reached it *)

(** What the run does not decide: the local time zone, the text
    [json.dump] produces, which writes fail, the times of a file just
    written. *)
Record os_env : Type := mkEnv {
  utcoffset : Z;
  json_dumps : NoteRecord -> string;
  write_fault : string -> fault;
  new_stat : stat
}.

Module Fs.

Definition is_dir (n : node) : bool :=
  match n with Dir _ => true | File _ => false end.

Fixpoint lookup (name : string) (es : entries) : option node :=
  match es with
  | [] => None
  | (k, n) :: tl => if String.eqb k name then Some n else lookup name tl
  end.

Fixpoint remove (name : string) (es : entries) : entries :=
  match es with
  | [] => []
  | (k, n) :: tl => if String.eqb k name then remove name tl else (k, n) :: remove name tl
  end.

(** Put [n] under [name]: in the place of the entry of that name, or as a
    new last entry. *)
Fixpoint put (name : string) (n : node) (es : entries) : entries :=
  match es with
  | [] => [(name, n)]
  | (k, m) :: tl => if String.eqb k name then (name, n) :: tl else (k, m) :: put name n tl
  end.

(** The names of the sub-directories and of the files of a listing, as
    [os.walk] hands them out. *)
Definition dir_names (es : entries) : list string :=
  map fst (filter (fun e => is_dir (snd e)) es).

Definition file_names (es : entries) : list string :=
  map fst (filter (fun e => negb (is_dir (snd e))) es).

(** The entry at a path given by its segments, below a listing. *)
Fixpoint lookup_path (p : list string) (es : entries) : option node :=
  match p with
  | [] => None
  | [name] => lookup name es
  | name :: p' =>
      match lookup name es with
      | Some (Dir sub) => lookup_path p' sub
      | _ => None
      end
  end.

(** Take the entry at a path out of the tree. *)
Fixpoint remove_path (p : list string) (es : entries) : entries :=
  match p with
  | [] => es
  | [name] => remove name es
  | name :: p' =>
      match lookup name es with
      | Some (Dir sub) => put name (Dir (remove_path p' sub)) es
      | _ => es
      end
  end.

(** [f.read()] of a file opened for reading as text. *)
Definition read_text (env : os_env) (f : file) : result string :=
  match f_data f with
  | Text s => Ok s
  | Undecodable => Raise UnicodeDecodeError
  | JsonDoc r => Ok (json_dumps env r)
  end.

End Fs.

(** ** The passes over the working directory

    The prune loop and the convert loop are the same text in [main]
    (main.py, lines 113-134) and in [lambda_handler] (lambda.py, lines
    156-177); the name [note_to_json] in them is bound by the file they stand
    in, so the convert loop takes it as an argument.

    [os.walk] lists a directory, hands the listing to the loop body, and only
    then goes down, in the order of the listing, into each sub-directory it
    listed; one it can no longer list is passed over.  The bodies below touch
    nothing but entries of the directory listed, so a sub-directory that is
    still there when the walk reaches it is as it was listed, and the walk
    goes by recursion on the tree.

    A pass that raises stops there; what it returns is the directory as the
    exception leaves it, and the exception. *)

Module Flatten.
Import Py Fs.
Local Open Scope string_scope.

(** *** Prune pass *)

(** [dir.startswith(".") or dir.startswith("_")] *)
Definition hidden (name : string) : bool :=
  startswith name "." || startswith name "_".

Fixpoint prune_walk (n : node) : node :=
  match n with
  | File f => File f
  | Dir es =>
      Dir ((fix go (l : entries) : entries :=
              match l with
              | [] => []
              | (name, c) :: tl =>
                  match c with
                  | Dir _ =>
                      if hidden name then go tl            (* shutil.rmtree *)
                      else (name, prune_walk c) :: go tl
                  | File _ =>
                      if negb (endswith name ".md") then go tl   (* os.remove *)
                      else (name, c) :: go tl
                  end
              end) es)
  end.

(** *** Convert pass *)

Section Convert.
Variable env : os_env.
Variable note_to_json : string -> file -> result NoteRecord.

(** The name of the JSON sibling of a note in its directory:
    [json_file] is [os.path.join(root, file)] with [".md"] taken off and
    [".json"] put on. *)
Definition json_name (file : string) : string :=
  removesuffix file ".md" ++ ".json".

(** [with open(json_file, "w") as f: json.dump(data, f)] in the directory
    listed as [es]. *)
Definition write_json (json_file name : string) (data : NoteRecord) (es : entries)
  : entries * option exn :=
  match lookup name es with
  | Some (Dir _) => (es, Some IsADirectoryError)
  | _ =>
      match write_fault env json_file with
      | OpenFails => (es, Some OSError)
      | WriteFails w => (put name (File (mkFile (new_stat env) (Text w))) es, Some OSError)
      | NoFault => (put name (File (mkFile (new_stat env) (JsonDoc data))) es, None)
      end
  end.

(** The body of the loop over [files] (lines 167-177 of lambda.py, 124-134
    of main.py). *)
Definition convert_file (root file : string) (es : entries) : entries * option exn :=
  if negb (endswith file ".md") then (es, None)
  else
    let note := path_join root file in
    match lookup file es with
    | None => (es, Some FileNotFoundError)
    | Some (Dir _) => (es, Some IsADirectoryError)
    | Some (File f) =>
        match note_to_json note f with
        | Raise e => (es, Some e)
        | Ok data =>
            let json_file := removesuffix note ".md" ++ ".json" in
            match write_json json_file (json_name file) data es with
            | (es', Some e) => (es', Some e)
            | (es', None) => (remove file es', None)        (* os.remove(note) *)
            end
        end
    end.

Fixpoint convert_files (root : string) (files : list string) (es : entries)
  : entries * option exn :=
  match files with
  | [] => (es, None)
  | file :: tl =>
      match convert_file root file es with
      | (es', None) => convert_files root tl es'
      | (es', Some e) => (es', Some e)
      end
  end.

Fixpoint convert_walk (root : string) (n : node) {struct n} : node * option exn :=
  match n with
  | File f => (File f, None)
  | Dir es =>
      match convert_files root (file_names es) es with
      | (es1, Some e) => (Dir es1, Some e)
      | (es1, None) =>
          let '(es2, r) :=
            (fix subdirs (l : entries) (acc : entries) {struct l}
               : entries * option exn :=
               match l with
               | [] => (acc, None)
               | (name, c) :: tl =>
                   match c with
                   | File _ => subdirs tl acc
                   | Dir _ =>
                       match convert_walk (path_join root name) c with
                       | (c', None) => subdirs tl (put name c' acc)
                       | (c', Some e) => (put name c' acc, Some e)
                       end
                   end
               end) es es1 in
          (Dir es2, r)
      end
  end.

End Convert.

(** *** Collapse pass (lambda.py, lines 180-200) *)

(** The pattern ["*.*"]: a name with a dot in it. *)
Definition has_dot (name : string) : bool := contains "." name.

(** [list(pathlib.Path(folder).rglob("*.*"))], the paths relative to
    [folder]: the matching entries of a directory, files and directories
    alike, then those of each of its sub-directories in turn. *)
Fixpoint rglob (n : node) : list (list string) :=
  match n with
  | File _ => []
  | Dir es =>
      (map (fun e => [fst e]) (filter (fun e => has_dot (fst e)) es)
       ++ (fix sub (l : entries) : list (list string) :=
             match l with
             | [] => []
             | (name, c) :: tl => map (cons name) (rglob c) ++ sub tl
             end) es)%list
  end.

(** [shutil.move(file, folder)], [folder] being a directory listed as [es]
    and [file] the path [p] below it: the destination is the entry of
    [folder] with the base name of [file]. *)
Definition shutil_move (p : list string) (es : entries) : result entries :=
  let name := last p "" in
  match lookup name es with
  | Some _ => Raise ShutilError
  | None =>
      match lookup_path p es with
      | Some n => Ok (remove_path p es ++ [(name, n)])%list
      | None => Raise FileNotFoundError
      end
  end.

(** [file.parent != pathlib.Path(vault)], the path of [file] being given by
    its segments below the vault. *)
Definition parent_is_not_vault (file : list string) : bool :=
  match removelast file with
  | [] => false
  | _ => true
  end.

(** Lines 189-194: one turn of the loop over [files]. *)
Definition try_move (folder : string) (es : entries) (p : list string) : entries :=
  if parent_is_not_vault (folder :: p) then
    match shutil_move p es with
    | Ok es' => es'
    | Raise _ => es                                        (* except: pass *)
    end
  else es.

(** Lines 197-200: every directory left in the folder is removed. *)
Definition remove_dirs (es : entries) : entries :=
  filter (fun e => negb (is_dir (snd e))) es.

(** The body of the loop over [first_level] for an entry that is a
    directory. *)
Definition collapse_folder (folder : string) (es : entries) : entries :=
  remove_dirs (fold_left (try_move folder) (rglob (Dir es)) es).

(** The loop over [first_level].  For an entry of the vault that is a file
    [rglob] finds nothing and [os.listdir] raises. *)
Fixpoint collapse_first_level (l : entries) : entries * option exn :=
  match l with
  | [] => ([], None)
  | (name, File f) :: tl => ((name, File f) :: tl, Some NotADirectoryError)
  | (name, Dir es) :: tl =>
      let '(tl', r) := collapse_first_level tl in
      ((name, Dir (collapse_folder name es)) :: tl', r)
  end.

Definition collapse_pass (vault : node) : node * option exn :=
  match vault with
  | File f => (File f, Some NotADirectoryError)
  | Dir es => let '(es', r) := collapse_first_level es in (Dir es', r)
  end.

(** One pass after another: the second runs if the first did not raise. *)
Definition and_then (r : node * option exn) (k : node -> node * option exn)
  : node * option exn :=
  match r with
  | (t, None) => k t
  | (t, Some e) => (t, Some e)
  end.

End Flatten.

(** ** [src/lambda.py] *)

Module Lambda.
Import Py Datetime.
Local Open Scope string_scope.

(** An element of the list [dates]: a datetime, or the one-element tuple
    line 76 builds around the birth time. *)
Inductive pyval : Type :=
| Dt (d : datetime)
| Tuple1 (d : datetime).

(** [[d for d in dates if d.year > 1990]]: a tuple has no attribute
    [year]. *)
Fixpoint after_1990 (dates : list pyval) : result (list datetime) :=
  match dates with
  | [] => Ok []
  | Dt d :: tl =>
      rest <- after_1990 tl ;;
      Ok (if (1990 <? year d)%Z then d :: rest else rest)
  | Tuple1 _ :: _ => Raise AttributeError
  end.

(** Lines 33-35: the loop over the lines of a note that starts with the
    front-matter marker.  [None]: the loop ended without returning. *)
Fixpoint metadata_date (lines : list string) : result (option string) :=
  match lines with
  | [] => Ok None
  | line :: tl =>
      if startswith line "date:"
      then d <- index1 (split line " ") ;; Ok (Some d)
      else metadata_date tl
  end.

(** Lines 38-68: the date read off the name of a periodic note.  [None]:
    no [return] was reached. *)
Definition periodic_date (note_file : string) : result (option string) :=
  if contains "/Periodic/" note_file then
    let fname := basename note_file in
    if contains "/Daily Notes/" note_file then
      Ok (Some (index0 (split fname " ")))
    else if contains "/Weekly Notes/" note_file then
      match split (removesuffix fname ".md") "-W" with
      | [y; week] =>
          week <- Num.py_int week ;;
          d <- Strptime.strptime_Y_W_w (y ++ "-W" ++ Num.py_str week ++ "-1") ;;
          Ok (Some (strftime_ymd d))
      | _ => Raise ValueError
      end
    else if contains "/Monthly Notes/" note_file then
      Ok (Some (removesuffix fname ".md" ++ "-01"))
    else if contains "/Yearly Notes/" note_file then
      Ok (Some (removesuffix fname ".md" ++ "-01-01"))
    else Ok None
  else Ok None.

Section WithEnv.
Variable env : os_env.

(** Lines 72-88: the oldest of the file's times. *)
Definition oldest_stat_date (stats : stat) : result string :=
  let birthtime :=
    match st_birthtime stats with
    | Some b => Tuple1 (fromtimestamp (utcoffset env) b)
    | None => Dt (fromtimestamp (utcoffset env) 1)
    end in
  let dates :=
    [ Dt (fromtimestamp (utcoffset env) (st_ctime stats));
      Dt (fromtimestamp (utcoffset env) (st_mtime stats));
      Dt (fromtimestamp (utcoffset env) (st_atime stats));
      birthtime ] in
  dates <- after_1990 dates ;;
  d <- py_min dates ;;
  Ok (strftime_ymd d).

(** [get_note_creation_date(note_file)], [f] being the file at
    [note_file]. *)
Definition get_note_creation_date (note_file : string) (f : file) : result string :=
  content <- Fs.read_text env f ;;
  fm <- (if startswith content "---"
         then metadata_date (split content (String "010" ""))
         else Ok None) ;;
  match fm with
  | Some d => Ok d
  | None =>
      pd <- periodic_date note_file ;;
      match pd with
      | Some d => Ok d
      | None => oldest_stat_date (f_stat f)
      end
  end.

(** [note_to_json(note_file)] *)
Definition note_to_json (note_file : string) (f : file) : result NoteRecord :=
  let stats := f_stat f in
  let path := join "/" (slice_1_m1 (split note_file "/")) in
  let folder := index_last (split path "/") in
  content <- Fs.read_text env f ;;
  created <- get_note_creation_date note_file f ;;
  let mtime := fromtimestamp (utcoffset env) (st_mtime stats) in
  Ok {| title := removesuffix (basename note_file) ".md";
        created_date := created;
        modified_date := strftime_ymd mtime;
        modified_time := strftime_ymd_hms mtime;
        path := path;
        folder := folder;
        content := content |}.

(** [lambda_handler(event, context)] from the extracted vault to the
    directory it uploads: prune, convert, collapse. *)
Definition lambda_handler (vault : node) : node * option exn :=
  Flatten.and_then
    (Flatten.convert_walk env note_to_json "/tmp/vault" (Flatten.prune_walk vault))
    Flatten.collapse_pass.

End WithEnv.
End Lambda.

(** ** [src/main.py] *)

Module Main.
Import Py Datetime.
Local Open Scope string_scope.

(** Lines 32-34. *)
Fixpoint metadata_date (lines : list string) : result (option string) :=
  match lines with
  | [] => Ok None
  | line :: tl =>
      if startswith line "date:"
      then d <- index1 (split line " ") ;; Ok (Some d)
      else metadata_date tl
  end.

(** Lines 37-67. *)
Definition periodic_date (note_file : string) : result (option string) :=
  if contains "/Periodic/" note_file then
    let fname := basename note_file in
    if contains "/Daily Notes/" note_file then
      Ok (Some (index0 (split fname " ")))
    else if contains "/Weekly Notes/" note_file then
      match split (removesuffix fname ".md") "-W" with
      | [y; week] =>
          week <- Num.py_int week ;;
          d <- Strptime.strptime_Y_W_w (y ++ "-W" ++ Num.py_str week ++ "-1") ;;
          Ok (Some (strftime_ymd d))
      | _ => Raise ValueError
      end
    else if contains "/Monthly Notes/" note_file then
      Ok (Some (removesuffix fname ".md" ++ "-01"))
    else if contains "/Yearly Notes/" note_file then
      Ok (Some (removesuffix fname ".md" ++ "-01-01"))
    else Ok None
  else Ok None.

Section WithEnv.
Variable env : os_env.

(** Lines 71-80: the oldest of the file's times; reading [st_birthtime]
    where the platform has none raises. *)
Definition oldest_stat_date (stats : stat) : result string :=
  birth <- match st_birthtime stats with
           | Some b => Ok b
           | None => Raise AttributeError
           end ;;
  let dates :=
    [ fromtimestamp (utcoffset env) (st_ctime stats);
      fromtimestamp (utcoffset env) (st_mtime stats);
      fromtimestamp (utcoffset env) (st_atime stats);
      fromtimestamp (utcoffset env) birth ] in
  let dates := filter (fun d => (1990 <? year d)%Z) dates in
  d <- py_min dates ;;
  Ok (strftime_ymd d).

(** [get_note_creation_date(note_file)] *)
Definition get_note_creation_date (note_file : string) (f : file) : result string :=
  content <- Fs.read_text env f ;;
  fm <- (if startswith content "---"
         then metadata_date (split content (String "010" ""))
         else Ok None) ;;
  match fm with
  | Some d => Ok d
  | None =>
      pd <- periodic_date note_file ;;
      match pd with
      | Some d => Ok d
      | None => oldest_stat_date (f_stat f)
      end
  end.

(** [note_to_json(note_file)] *)
Definition note_to_json (note_file : string) (f : file) : result NoteRecord :=
  let stats := f_stat f in
  let path := index_last (split (dirname note_file) "/") in
  let folder := index_last (split (dirname path) "/") in
  content <- Fs.read_text env f ;;
  created <- get_note_creation_date note_file f ;;
  let mtime := fromtimestamp (utcoffset env) (st_mtime stats) in
  Ok {| title := removesuffix (basename note_file) ".md";
        created_date := created;
        modified_date := strftime_ymd mtime;
        modified_time := strftime_ymd_hms mtime;
        path := path;
        folder := folder;
        content := content |}.

(** [main()] from the extracted vault on: prune, convert. *)
Definition main (vault : node) : node * option exn :=
  Flatten.convert_walk env note_to_json "vault" (Flatten.prune_walk vault).

End WithEnv.
End Main.

(** ** [src/lambda.py]: the calls to the object store *)

Module LambdaS3.
Import Py.
Local Open Scope string_scope.

(** An entry of [response["Contents"]]: its key and the time it was last
    modified, in seconds. *)
Record s3_object : Type := mkObject { Key : string; LastModified : Z }.

(** What the choice of the archive can raise. *)
Inductive archive_error : Type :=
| KeyError      (* the listing of an empty bucket has no "Contents" *)
| EmptyMax.     (* max() of an empty sequence *)

(** [max(l, key=lambda obj: obj["LastModified"])] from a first element on:
    a later element takes over when its key is greater. *)
Fixpoint max_from (best : s3_object) (l : list s3_object) : s3_object :=
  match l with
  | [] => best
  | o :: tl => max_from (if (LastModified best <? LastModified o)%Z then o else best) tl
  end.

(** Lines 139-144: [latest_zip_key], from the listing of the source bucket;
    [None] is a response without the key ["Contents"]. *)
Definition latest_zip_key (contents : option (list s3_object))
  : archive_error + string :=
  match contents with
  | None => inl KeyError
  | Some [] => inl EmptyMax
  | Some (o :: tl) => inr (Key (max_from o tl))
  end.

(** [s.replace("\\", "/")] *)
Fixpoint replace_backslash (s : string) : string :=
  match s with
  | EmptyString => EmptyString
  | String c s' =>
      String (if Ascii.eqb c "\" then "/"%char else c) (replace_backslash s')
  end.

(** Lines 123-127 of [upload_directory_to_s3]: the key a file is uploaded
    under, from the name of the bucket and the path of the file relative to
    the directory uploaded. *)
Definition s3_path (bucket_name relative_path : string) : string :=
  let s3_path := replace_backslash (path_join bucket_name relative_path) in
  join "/" (slice_1 (split s3_path "/")).

End LambdaS3.

(** ** Sample files, and the sentences of the specification as they are worded *)

(** An environment and files to evaluate the code on. *)
Definition env0 : os_env :=
  mkEnv 0 (fun r => title r) (fun _ => NoFault) (mkStat 0 0 0 None).

Definition text_file (st : stat) (s : string) : file := mkFile st (Text s).

(** 2021-07-23, 2022-03-01 and 1985-06-15, at noon UTC. *)
Definition t2021 : Z := 1627041600.
Definition t2022 : Z := 1646136000.
Definition t1985 : Z := 487684800.

Definition nl : string := String "010" "".

(** The line test of the loop over the lines. *)
Definition is_date_line (line : string) : bool := Py.startswith line "date:".

Module Spec.

(** The words of the specification, "the second whitespace-separated token":
    the tokens of a line are its maximal runs of characters that are not
    white space. *)
Fixpoint tokens_go (cur s : string) : list string :=
  match s with
  | EmptyString => if String.eqb cur "" then [] else [cur]
  | String c s' =>
      if Num.is_space c
      then (if String.eqb cur "" then tokens_go "" s' else cur :: tokens_go "" s')
      else tokens_go (cur ++ String c "") s'
  end.

Definition whitespace_tokens (s : string) : list string := tokens_go "" s.

(** The words of the specification, "the Monday of ISO week [w] of year
    [y]", in days since 1970-01-01: ISO week 1 is the week, Monday to
    Sunday, that holds the fourth of January. *)
Definition iso_week_monday (y w : Z) : Z :=
  let jan4 := Datetime.days_from_civil y 1 4 in
  (jan4 - Datetime.weekday_of_days jan4 + 7 * (w - 1))%Z.

Definition date_of_days (z : Z) : Datetime.datetime :=
  let '(y, m, d) := Datetime.civil_from_days z in
  Datetime.mkDatetime y m d 0 0 0.

End Spec.

(** The sentence of the specification on the front-matter tier, as it is
    worded: the date is the second whitespace-separated token of the first
    [date:] line. *)
Definition front_matter_returns_second_token : Prop :=
  forall env note_file f content line tok,
    Fs.read_text env f = Ok content ->
    Py.startswith content "---" = true ->
    find is_date_line (Py.split content nl) = Some line ->
    nth_error (Spec.whitespace_tokens line) 1 = Some tok ->
    Lambda.get_note_creation_date env note_file f = Ok tok.

Definition two_spaces_note : file :=
  text_file (mkStat t2021 t2021 t2021 None)
    ("---" ++ nl ++ "date:  2021-07-23" ++ nl ++ "---" ++ nl ++ "text").

Definition dated_note : file :=
  text_file (mkStat t2022 t2022 t2022 None)
    ("---" ++ nl ++ "tags: x" ++ nl ++ "date: 2021-07-23 10:00" ++ nl ++ "---" ++ nl).

Definition bare_date_note : file :=
  text_file (mkStat t2021 t2021 t2021 None)
    ("---" ++ nl ++ "date:2021-07-23" ++ nl ++ "---" ++ nl ++ "text").

(** The front-matter tier returns nothing: no marker, or no [date:] line. *)
Definition no_front_matter_date (content : string) : Prop :=
  Py.startswith content "---" = false
  \/ find is_date_line (Py.split content nl) = None.

(** The sentence of the specification on weekly notes, as it is worded. *)
Definition weekly_note_gets_iso_monday : Prop :=
  forall env note_file f content,
    Fs.read_text env f = Ok content ->
    no_front_matter_date content ->
    Py.contains "/Periodic/" note_file = true ->
    Py.contains "/Weekly Notes/" note_file = true ->
    Py.basename note_file = "2023-W29.md" ->
    Lambda.get_note_creation_date env note_file f
    = Ok (Datetime.strftime_ymd (Spec.date_of_days (Spec.iso_week_monday 2023 29))).

Definition plain_note : file :=
  text_file (mkStat t2021 t2021 t2021 None) "text".

(** The sentence of the specification on errors in the convert pass, as it
    is worded: a note that fails is the only one left unconverted, so every
    note of a directory whose record can be made is converted by the loop
    over that directory. *)
Definition convert_pass_continues_after_error : Prop :=
  forall env root es file f,
    In file (Fs.file_names es) ->
    Py.endswith file ".md" = true ->
    Fs.lookup file es = Some (File f) ->
    is_ok (Main.note_to_json env (Py.path_join root file) f) = true ->
    Fs.lookup file
      (fst (Flatten.convert_files env (Main.note_to_json env) root
              (Fs.file_names es) es)) = None.

Definition two_notes : entries :=
  [("a.md", File bare_date_note); ("b.md", File dated_note)].

(** A listing that holds files only. *)
Definition only_files (es : entries) : bool :=
  forallb (fun e => negb (Fs.is_dir (snd e))) es.

(** A vault of two levels: every entry of it is a directory that holds files
    only. *)
Definition two_levels (es : entries) : bool :=
  forallb (fun e => match snd e with
                    | Dir sub => only_files sub
                    | File _ => false
                    end) es.

(** A listing that holds directories only. *)
Definition only_dirs (es : entries) : bool :=
  forallb (fun e => Fs.is_dir (snd e)) es.

(** The sentence of the specification on moves that fail, as it is worded:
    a file below a sub-directory whose move fails at its turn is still at
    that place when the folder has been collapsed. *)
Definition failed_move_leaves_file_in_place : Prop :=
  forall folder es pre p post e n,
    Flatten.rglob (Dir es) = pre ++ p :: post ->
    Flatten.shutil_move p (fold_left (Flatten.try_move folder) pre es) = Raise e ->
    Fs.lookup_path p (fold_left (Flatten.try_move folder) pre es) = Some n ->
    (2 <= length p)%nat ->
    Fs.lookup_path p (Flatten.collapse_folder folder es) = Some n.

Definition colliding : entries :=
  [("x.json", File plain_note); ("sub", Dir [("x.json", File dated_note)])].

(** The sentence of the specification on the result of the collapse pass, as
    it is worded: whatever the vault holds, after the pass every file is a
    direct child of a first-level folder. *)
Definition collapse_leaves_two_levels : Prop :=
  forall es es' r,
    Flatten.collapse_pass (Dir es) = (Dir es', r) -> two_levels es' = true.

Definition note_at_the_root : entries :=
  [("x.json", File plain_note);
   ("A", Dir [("sub", Dir [("y.json", File dated_note)])])].

(** The sentence of the specification on the two entry points, as it is
    worded: from the same extracted vault both leave the same directory. *)
Definition entry_points_agree : Prop :=
  forall env vault,
    fst (Main.main env vault) = fst (Lambda.lambda_handler env vault).

Definition nested_vault : node :=
  Dir [("A", Dir [("sub", Dir [("y.md", File dated_note)])])].

(** ** What the theorems on the passes speak of *)

(** The listing of a directory. *)
Definition entries_of (n : node) : entries :=
  match n with
  | Dir es => es
  | File _ => []
  end.

(** The prune loop keeps the entry: a directory that is not hidden, a file
    that is a note. *)
Definition kept (name : string) (c : node) : bool :=
  match c with
  | Dir _ => negb (Flatten.hidden name)
  | File _ => Py.endswith name ".md"
  end.

(** A vault as an archive may unpack: a settings folder, a picture, a
    template folder, notes. *)
Definition sample_vault : entries :=
  [(".obsidian", Dir [("app.json", File plain_note)]);
   ("A", Dir [("x.md", File plain_note);
              ("img.png", File plain_note);
              ("_tmpl", Dir [("t.md", File plain_note)]);
              ("sub", Dir [("y.md", File dated_note)])]);
   ("readme.txt", File plain_note)].






(** The times of a file that count: those after 1990. *)
Definition recent_times (tz : Z) (times : list Z) : list Datetime.datetime :=
  filter (fun d => (1990 <? Datetime.year d)%Z) (map (Datetime.fromtimestamp tz) times).

(** A path segment: a name without a slash. *)
Definition slash_free (s : string) : Prop := Py.contains "/" s = false.

(** What the convert pass has made of a note [name] that held [f]: it is
    still there, or it is gone and its JSON sibling holds its record. *)
Definition converted (env : os_env)
    (note_to_json : string -> file -> result NoteRecord)
    (root name : string) (f : file) (es' : entries) : Prop :=
  Fs.lookup name es' = None
  /\ exists data,
       note_to_json (Py.path_join root name) f = Ok data
       /\ Fs.lookup (Flatten.json_name name) es'
          = Some (File (mkFile (new_stat env) (JsonDoc data))).

Definition kept_or_converted (env : os_env)
    (note_to_json : string -> file -> result NoteRecord)
    (root name : string) (f : file) (es' : entries) : Prop :=
  Fs.lookup name es' = Some (File f)
  \/ converted env note_to_json root name f es'.

(** No name comes twice. *)
Fixpoint distinct (l : list string) : bool :=
  match l with
  | [] => true
  | x :: tl => negb (existsb (String.eqb x) tl) && distinct tl
  end.

(** A tree as a file system holds it: in every directory, every name names
    one entry. *)
Fixpoint unique_names (n : node) : bool :=
  match n with
  | File _ => true
  | Dir es => distinct (map fst es) && forallb (fun e => unique_names (snd e)) es
  end.

(** A tree without notes: no file in it has a name that ends in [.md]. *)
Fixpoint no_notes (n : node) : bool :=
  match n with
  | File _ => true
  | Dir es =>
      forallb (fun e => match snd e with
                        | File _ => negb (Py.endswith (fst e) ".md")
                        | Dir _ => no_notes (snd e)
                        end) es
  end.

(** The walk of [Flatten.convert_walk] into the sub-directories of a
    listing, by name. *)
Definition walk_subdirs (env : os_env)
    (note_to_json : string -> file -> result NoteRecord) (root : string)
  : entries -> entries -> entries * option exn :=
  fix subdirs (l : entries) (acc : entries) {struct l} : entries * option exn :=
    match l with
    | [] => (acc, None)
    | (name, c) :: tl =>
        match c with
        | File _ => subdirs tl acc
        | Dir _ =>
            match Flatten.convert_walk env note_to_json (Py.path_join root name) c with
            | (c', None) => subdirs tl (Fs.put name c' acc)
            | (c', Some e) => (Fs.put name c' acc, Some e)
            end
        end
    end.


(** The path string the walk hands to [note_to_json] for the entry at the
    segments [p] below the directory it started from under the name [root]:
    [os.path.join] at every step down. *)
Definition path_string (root : string) (p : list string) : string :=
  fold_left Py.path_join p root.

(** The segments of the JSON sibling of the note at the segments [p]. *)
Definition json_path (p : list string) : list string :=
  removelast p ++ [Flatten.json_name (last p "")].

(** A vault with a note that cannot be dated, two folders down. *)
Definition failing_vault : node :=
  Dir [("A", Dir [("sub", Dir two_notes); ("z.md", File dated_note)]);
       ("B", Dir [("w.md", File dated_note)])].

(** Two records that agree on every key but [path] and [folder]. *)
Definition same_but_for_path_and_folder (r1 r2 : NoteRecord) : Prop :=
  title r1 = title r2
  /\ created_date r1 = created_date r2
  /\ modified_date r1 = modified_date r2
  /\ modified_time r1 = modified_time r2
  /\ content r1 = content r2.

(** Two trees that are alike: the same directories and the same names at the
    same places, the same files but for JSON documents, which lie under
    names that are not notes' and agree but for [path] and [folder].  The
    first argument is the name the two trees stand under. *)
Inductive alike : string -> node -> node -> Prop :=
| alike_same name n : alike name n n
| alike_json name st r1 r2 :
    Py.endswith name ".md" = false ->
    same_but_for_path_and_folder r1 r2 ->
    alike name (File (mkFile st (JsonDoc r1))) (File (mkFile st (JsonDoc r2)))
| alike_dir name es1 es2 :
    Forall2 (fun e1 e2 => fst e1 = fst e2 /\ alike (fst e1) (snd e1) (snd e2))
            es1 es2 ->
    alike name (Dir es1) (Dir es2).

Definition alike_entries (es1 es2 : entries) : Prop :=
  Forall2 (fun e1 e2 => fst e1 = fst e2 /\ alike (fst e1) (snd e1) (snd e2)) es1 es2.

(** The path strings the two entry points have for the same place of the
    vault: [main] walks it under [vault], [lambda_handler] under
    [/tmp/vault]. *)
Definition vault_paths (a b : string) : Prop :=
  a = b
  \/ (a = "vault" /\ b = "/tmp/vault")
  \/ exists rel, a = ("vault/" ++ rel)%string /\ b = ("/tmp/vault/" ++ rel)%string.

(** The date the first two tiers give, front matter then periodic rules, the
    same text in the two files; [None] leaves the date to the times of the
    file. *)
Definition text_date (content note_file : string) : result (option string) :=
  bind (if Py.startswith content "---"
        then Lambda.metadata_date (Py.split content nl)
        else Ok None)
       (fun fm => match fm with
                  | Some d => Ok (Some d)
                  | None => Lambda.periodic_date note_file
                  end).

(** * Properties *)

(** ** The library functions on sample inputs *)

Example split_ex1 : Py.split "a/b//c" "/" = ["a"; "b"; ""; "c"].
Proof. reflexivity. Qed.
Example split_ex2 : Py.split "2023-W29" "-W" = ["2023"; "29"].
Proof. reflexivity. Qed.
Example split_ex3 : Py.split "" "/" = [""].
Proof. reflexivity. Qed.
Example dirname_ex1 : Py.dirname "vault/A/B/x.md" = "vault/A/B".
Proof. reflexivity. Qed.
Example dirname_ex2 : Py.dirname "/x.md" = "/".
Proof. reflexivity. Qed.
Example dirname_ex3 : Py.dirname "B" = "".
Proof. reflexivity. Qed.
Example basename_ex1 : Py.basename "/tmp/vault/A/x.md" = "x.md".
Proof. reflexivity. Qed.
Example removesuffix_ex1 : Py.removesuffix "2023-W29.md" ".md" = "2023-W29".
Proof. reflexivity. Qed.
Example removesuffix_ex2 : Py.removesuffix "notes" ".md" = "notes".
Proof. reflexivity. Qed.
Example py_int_ex1 : Num.py_int "29" = Ok 29%Z. Proof. reflexivity. Qed.
Example py_int_ex2 : Num.py_int " 029 " = Ok 29%Z. Proof. reflexivity. Qed.
Example py_int_ex3 : Num.py_int "-3" = Ok (-3)%Z. Proof. reflexivity. Qed.
Example py_int_ex4 : Num.py_int "2x" = Raise ValueError. Proof. reflexivity. Qed.
Example py_int_ex5 : Num.py_int "" = Raise ValueError. Proof. reflexivity. Qed.
Example py_str_ex1 : Num.py_str 29 = "29". Proof. reflexivity. Qed.
Example py_str_ex2 : Num.py_str 0 = "0". Proof. reflexivity. Qed.
Example py_str_ex3 : Num.py_str (-120) = "-120". Proof. reflexivity. Qed.
Example py_str_ex4 : Num.py_str 1000 = "1000". Proof. reflexivity. Qed.

Example civil_ex1 : Datetime.civil_from_days 0 = (1970, 1, 1)%Z.
Proof. reflexivity. Qed.
Example civil_ex2 : Datetime.civil_from_days 19555 = (2023, 7, 17)%Z.
Proof. reflexivity. Qed.
Example civil_ex3 : Datetime.days_from_civil 2023 7 17 = 19555%Z.
Proof. reflexivity. Qed.
Example civil_ex4 : Datetime.civil_from_days (-1) = (1969, 12, 31)%Z.
Proof. reflexivity. Qed.
Example weekday_ex1 : Datetime.weekday_of_days 19555 = 0%Z.
Proof. reflexivity. Qed.
Example fromtimestamp_ex1 :
  Datetime.strftime_ymd_hms (Datetime.fromtimestamp 0 1689602400)
  = "2023-07-17 14:00:00".
Proof. reflexivity. Qed.
Example strptime_ex1 :
  Strptime.strptime_Y_W_w "2023-W29-1" = Ok (Datetime.mkDatetime 2023 7 17 0 0 0).
Proof. reflexivity. Qed.
Example strptime_ex2 :
  Strptime.strptime_Y_W_w "2023-W0-1" = Ok (Datetime.mkDatetime 2022 12 26 0 0 0).
Proof. reflexivity. Qed.
Example strptime_ex3 :
  Strptime.strptime_Y_W_w "2024-W1-1" = Ok (Datetime.mkDatetime 2024 1 1 0 0 0).
Proof. reflexivity. Qed.
Example strptime_ex4 : Strptime.strptime_Y_W_w "2023-W54-1" = Raise ValueError.
Proof. reflexivity. Qed.
Example strptime_ex5 : Strptime.strptime_Y_W_w "2023-W5-1" = Ok (Datetime.mkDatetime 2023 1 30 0 0 0).
Proof. reflexivity. Qed.

(** ** Lemmas on the string functions *)

Section StringLemmas.
Import Py.
Local Open Scope string_scope.

Lemma append_empty_r (s : string) : s ++ "" = s.
Proof. induction s as [|c s IH]; simpl; [reflexivity | now rewrite IH]. Qed.

Lemma append_assoc (a b c : string) : (a ++ b) ++ c = a ++ (b ++ c).
Proof. induction a as [|x a IH]; simpl; [reflexivity | now rewrite IH]. Qed.

Lemma length_append (a b : string) :
  String.length (a ++ b) = (String.length a + String.length b)%nat.
Proof. induction a as [|x a IH]; simpl; [reflexivity | now rewrite IH]. Qed.

Lemma prefix_char (c a : ascii) (s : string) :
  String.prefix (String c "") (String a s) = Ascii.eqb c a.
Proof.
  cbn [String.prefix]. destruct (ascii_dec c a) as [e|n].
  - subst a. rewrite Ascii.eqb_refl. now destruct s.
  - symmetry. now apply Ascii.eqb_neq.
Qed.

(** A string without the separator is one piece. *)
Lemma split_go_no_sep (c : ascii) (s cur : string) :
  contains (String c "") s = false ->
  split_go (String c "") 0 cur s = [cur ++ s].
Proof.
  revert cur. induction s as [|a s IH]; intros cur H.
  - simpl. now rewrite append_empty_r.
  - cbn [contains] in H. apply orb_false_iff in H as [Hp Hc].
    cbn [split_go]. rewrite Hp. rewrite (IH _ Hc).
    now rewrite append_assoc.
Qed.

(** The first separator ends the first piece. *)
Lemma split_go_first_sep (c : ascii) (a b cur : string) :
  contains (String c "") a = false ->
  split_go (String c "") 0 cur (a ++ String c b)
  = (cur ++ a) :: split_go (String c "") 0 "" b.
Proof.
  revert cur. induction a as [|x a IH]; intros cur H.
  - cbn [append split_go]. rewrite prefix_char, Ascii.eqb_refl.
    now rewrite append_empty_r.
  - cbn [contains] in H. apply orb_false_iff in H as [Hp Hc].
    rewrite prefix_char in Hp.
    cbn [append split_go]. rewrite prefix_char, Hp, (IH _ Hc).
    now rewrite append_assoc.
Qed.

Lemma split_no_sep (c : ascii) (s : string) :
  contains (String c "") s = false -> split s (String c "") = [s].
Proof. intros H. unfold split. now rewrite split_go_no_sep. Qed.

Lemma split_first_sep (c : ascii) (a b : string) :
  contains (String c "") a = false ->
  split (a ++ String c b) (String c "") = a :: split b (String c "").
Proof. intros H. unfold split. now rewrite split_go_first_sep. Qed.

(** [split] never returns the empty list. *)
Lemma split_go_nonempty (sep : string) (s : string) :
  forall skip cur, split_go sep skip cur s <> [].
Proof.
  induction s as [|a s IH]; intros skip cur; cbn [split_go]; [discriminate|].
  destruct skip; [|apply IH].
  destruct (String.prefix sep (String a s)); [discriminate | apply IH].
Qed.

Lemma prefix_empty (s : string) : String.prefix "" s = true.
Proof. now destruct s. Qed.

Lemma contains_slash_app (a b : string) : contains "/" (a ++ String "/" b) = true.
Proof.
  induction a as [|c a IH]; cbn [append contains].
  - now rewrite prefix_char.
  - rewrite IH. apply orb_true_r.
Qed.

(** The base name is read after the last slash: what stands before a slash
    does not count. *)
Lemma basename_after_slash (a b : string) :
  basename (a ++ String "/" b) = basename (String "/" b).
Proof.
  unfold basename. induction a as [|c a IH]; [reflexivity|].
  cbn [append].
  change (after_last_slash (String c (a ++ String "/" b)))
    with (if contains "/" (a ++ String "/" b)
          then after_last_slash (a ++ String "/" b)
          else if Ascii.eqb c "/" then a ++ String "/" b
               else String c (a ++ String "/" b)).
  now rewrite contains_slash_app.
Qed.

Lemma length_substring_0 (k : nat) (s : string) :
  (k <= String.length s)%nat -> String.length (String.substring 0 k s) = k.
Proof.
  revert k. induction s as [|a s IH]; intros [|k] H; simpl in *; try lia.
  now rewrite IH by lia.
Qed.

Lemma length_removesuffix (s p : string) :
  endswith s p = true ->
  String.length (removesuffix s p) = (String.length s - String.length p)%nat.
Proof.
  intros H. unfold removesuffix. rewrite H. simpl.
  destruct (String.eqb p "") eqn:E.
  - apply String.eqb_eq in E. subst p. simpl. lia.
  - simpl. apply length_substring_0. lia.
Qed.

End StringLemmas.

(** ** Date inference: the front-matter tier *)

Section FrontMatter.
Import Py.
Local Open Scope string_scope.

Lemma lambda_metadata_date_find (lines : list string) :
  Lambda.metadata_date lines =
  match find is_date_line lines with
  | Some line => d <- index1 (split line " ") ;; Ok (Some d)
  | None => Ok None
  end.
Proof.
  induction lines as [|l tl IH]; [reflexivity|].
  cbn [Lambda.metadata_date find]. unfold is_date_line at 1.
  destruct (startswith l "date:"); [reflexivity | exact IH].
Qed.

Lemma main_metadata_date_find (lines : list string) :
  Main.metadata_date lines =
  match find is_date_line lines with
  | Some line => d <- index1 (split line " ") ;; Ok (Some d)
  | None => Ok None
  end.
Proof.
  induction lines as [|l tl IH]; [reflexivity|].
  cbn [Main.metadata_date find]. unfold is_date_line at 1.
  destruct (startswith l "date:"); [reflexivity | exact IH].
Qed.

(** With the marker and a [date:] line, the function is [line.split(" ")[1]]
    of the first such line, whatever the path and the times. *)
Lemma lambda_front_matter env note_file f content line :
  Fs.read_text env f = Ok content ->
  startswith content "---" = true ->
  find is_date_line (split content nl) = Some line ->
  Lambda.get_note_creation_date env note_file f = index1 (split line " ").
Proof.
  intros Hr Hs Hf. unfold Lambda.get_note_creation_date.
  rewrite Hr. cbn [bind]. rewrite Hs.
  fold nl. rewrite lambda_metadata_date_find, Hf.
  now destruct (index1 (split line " ")).
Qed.

Lemma main_front_matter env note_file f content line :
  Fs.read_text env f = Ok content ->
  startswith content "---" = true ->
  find is_date_line (split content nl) = Some line ->
  Main.get_note_creation_date env note_file f = index1 (split line " ").
Proof.
  intros Hr Hs Hf. unfold Main.get_note_creation_date.
  rewrite Hr. cbn [bind]. rewrite Hs.
  fold nl. rewrite main_metadata_date_find, Hf.
  now destruct (index1 (split line " ")).
Qed.

(** The second piece of a line cut at its spaces. *)
Lemma index1_split_space (a tok rest : string) :
  contains " " a = false ->
  contains " " tok = false ->
  rest = "" \/ startswith rest " " = true ->
  index1 (split (a ++ " " ++ tok ++ rest) " ") = Ok tok.
Proof.
  intros Ha Ht Hrest.
  change (a ++ " " ++ tok ++ rest) with (a ++ String " " (tok ++ rest)).
  rewrite (split_first_sep " " a _ Ha).
  destruct Hrest as [-> | Hs].
  - rewrite append_empty_r, (split_no_sep " " tok Ht). reflexivity.
  - destruct rest as [|c r]; [discriminate|].
    unfold startswith in Hs. rewrite prefix_char in Hs.
    apply Ascii.eqb_eq in Hs. subst c.
    rewrite (split_first_sep " " tok r Ht). reflexivity.
Qed.

End FrontMatter.

(** C7, counterexample: with two spaces after [date:] the token of the
    specification is [2021-07-23], and the code returns the empty string that
    lies between the two spaces. *)
Lemma C7_counterexample : ~ front_matter_returns_second_token.
Proof.
  intros H.
  specialize (H env0 "vault/n.md" two_spaces_note _ "date:  2021-07-23" "2021-07-23"
                eq_refl eq_refl eq_refl eq_refl).
  vm_compute in H. discriminate H.
Qed.

(** C7, amended: for a note that starts with [---], the date is read off the
    first line that begins with [date:], cut at single spaces: it is the text
    between the first space of that line and the next space or the end of the
    line, verbatim, whatever the path of the note and its times. *)
Theorem C7_front_matter_date_is_second_space_piece :
  forall env note_file f content line a tok rest,
    Fs.read_text env f = Ok content ->
    Py.startswith content "---" = true ->
    find is_date_line (Py.split content nl) = Some line ->
    line = (a ++ " " ++ tok ++ rest)%string ->
    Py.contains " " a = false ->
    Py.contains " " tok = false ->
    rest = "" \/ Py.startswith rest " " = true ->
    Lambda.get_note_creation_date env note_file f = Ok tok
    /\ Main.get_note_creation_date env note_file f = Ok tok.
Proof.
  intros env note_file f content line a tok rest Hr Hs Hf -> Ha Ht Hrest.
  rewrite (lambda_front_matter _ _ _ _ _ Hr Hs Hf).
  rewrite (main_front_matter _ _ _ _ _ Hr Hs Hf).
  split; now apply index1_split_space.
Qed.

Lemma C7_witness :
  Lambda.get_note_creation_date env0 "/tmp/vault/Periodic/Daily Notes/n.md" dated_note
    = Ok "2021-07-23"
  /\ Main.get_note_creation_date env0 "/tmp/vault/Periodic/Daily Notes/n.md" dated_note
    = Ok "2021-07-23".
Proof.
  apply (C7_front_matter_date_is_second_space_piece env0 _ dated_note
           ("---" ++ nl ++ "tags: x" ++ nl ++ "date: 2021-07-23 10:00" ++ nl ++ "---" ++ nl)
           "date: 2021-07-23 10:00" "date:" "2021-07-23" " 10:00");
    try reflexivity.
  right. reflexivity.
Defined.

(** C10: date inference is partial on notes with the front-matter marker.
    When the first line that begins with [date:] holds no space, index 1 of
    its pieces does not exist: the function raises [IndexError], in both
    files, and neither returns a date nor goes on to the next tier. *)
Theorem C10_date_line_without_space_raises :
  forall env note_file f content line,
    Fs.read_text env f = Ok content ->
    Py.startswith content "---" = true ->
    find is_date_line (Py.split content nl) = Some line ->
    Py.contains " " line = false ->
    Lambda.get_note_creation_date env note_file f = Raise IndexError
    /\ Main.get_note_creation_date env note_file f = Raise IndexError.
Proof.
  intros env note_file f content line Hr Hs Hf Hn.
  rewrite (lambda_front_matter _ _ _ _ _ Hr Hs Hf).
  rewrite (main_front_matter _ _ _ _ _ Hr Hs Hf).
  rewrite (split_no_sep " " line Hn). split; reflexivity.
Qed.

Lemma C10_witness :
  Lambda.get_note_creation_date env0 "/tmp/vault/A/n.md" bare_date_note = Raise IndexError
  /\ Main.get_note_creation_date env0 "/tmp/vault/A/n.md" bare_date_note = Raise IndexError.
Proof.
  apply (C10_date_line_without_space_raises env0 _ bare_date_note
           ("---" ++ nl ++ "date:2021-07-23" ++ nl ++ "---" ++ nl ++ "text")
           "date:2021-07-23"); reflexivity.
Defined.

(** ** Date inference: the periodic tier and the times of the file *)

Lemma lambda_without_front_matter env note_file f content :
  Fs.read_text env f = Ok content ->
  no_front_matter_date content ->
  Lambda.get_note_creation_date env note_file f =
  (pd <- Lambda.periodic_date note_file ;;
   match pd with
   | Some d => Ok d
   | None => Lambda.oldest_stat_date env (f_stat f)
   end).
Proof.
  intros Hr Hn. unfold Lambda.get_note_creation_date.
  rewrite Hr. cbn [bind]. destruct Hn as [Hn | Hn].
  - now rewrite Hn.
  - destruct (Py.startswith content "---"); [|reflexivity].
    fold nl. now rewrite lambda_metadata_date_find, Hn.
Qed.

Lemma main_without_front_matter env note_file f content :
  Fs.read_text env f = Ok content ->
  no_front_matter_date content ->
  Main.get_note_creation_date env note_file f =
  (pd <- Main.periodic_date note_file ;;
   match pd with
   | Some d => Ok d
   | None => Main.oldest_stat_date env (f_stat f)
   end).
Proof.
  intros Hr Hn. unfold Main.get_note_creation_date.
  rewrite Hr. cbn [bind]. destruct Hn as [Hn | Hn].
  - now rewrite Hn.
  - destruct (Py.startswith content "---"); [|reflexivity].
    fold nl. now rewrite main_metadata_date_find, Hn.
Qed.

(** The periodic rules are the same text in the two files. *)
Lemma periodic_date_same (note_file : string) :
  Main.periodic_date note_file = Lambda.periodic_date note_file.
Proof. reflexivity. Qed.

(** C6, counterexample: a weekly folder below a daily folder.  The daily
    rule is tested first and returns the file name up to its first space. *)
Lemma C6_counterexample : ~ weekly_note_gets_iso_monday.
Proof.
  intros H.
  specialize (H env0 "/tmp/vault/Periodic/Daily Notes/Weekly Notes/2023-W29.md"
                (text_file (mkStat t2021 t2021 t2021 None) "text") "text"
                eq_refl (or_introl eq_refl) eq_refl eq_refl eq_refl).
  vm_compute in H. discriminate H.
Qed.

(** C6, amended: for a note without a front-matter date whose path holds
    [/Periodic/] and [/Weekly Notes/] but not [/Daily Notes/], and whose file
    name is [2023-W29.md], the date is 2023-07-17, the Monday of ISO week 29
    of 2023: the week the [%W] parse counts as 29 is that ISO week. *)
Theorem C6_weekly_2023_W29_is_iso_monday :
  forall env note_file f content,
    Fs.read_text env f = Ok content ->
    no_front_matter_date content ->
    Py.contains "/Periodic/" note_file = true ->
    Py.contains "/Daily Notes/" note_file = false ->
    Py.contains "/Weekly Notes/" note_file = true ->
    Py.basename note_file = "2023-W29.md" ->
    Lambda.get_note_creation_date env note_file f = Ok "2023-07-17"
    /\ Main.get_note_creation_date env note_file f = Ok "2023-07-17"
    /\ Datetime.strftime_ymd (Spec.date_of_days (Spec.iso_week_monday 2023 29))
       = "2023-07-17"
    /\ Datetime.weekday_of_days (Spec.iso_week_monday 2023 29) = 0%Z.
Proof.
  intros env note_file f content Hr Hn Hp Hd Hw Hb.
  assert (P : Lambda.periodic_date note_file = Ok (Some "2023-07-17")).
  { unfold Lambda.periodic_date. rewrite Hp, Hd, Hw, Hb. reflexivity. }
  rewrite (lambda_without_front_matter _ _ _ _ Hr Hn).
  rewrite (main_without_front_matter _ _ _ _ Hr Hn).
  change (Main.periodic_date note_file) with (Lambda.periodic_date note_file).
  rewrite P. repeat split; reflexivity.
Qed.

Lemma C6_witness :
  Lambda.get_note_creation_date env0 "/tmp/vault/Periodic/Weekly Notes/2023-W29.md"
    (text_file (mkStat t2021 t2021 t2021 None) "# week") = Ok "2023-07-17"
  /\ Main.get_note_creation_date env0 "/tmp/vault/Periodic/Weekly Notes/2023-W29.md"
    (text_file (mkStat t2021 t2021 t2021 None) "# week") = Ok "2023-07-17"
  /\ Datetime.strftime_ymd (Spec.date_of_days (Spec.iso_week_monday 2023 29))
     = "2023-07-17"
  /\ Datetime.weekday_of_days (Spec.iso_week_monday 2023 29) = 0%Z.
Proof.
  apply (C6_weekly_2023_W29_is_iso_monday env0 _ _ "# week");
    try reflexivity.
  left. reflexivity.
Defined.

(** C5: the tier of the file's times, on a note that reaches it.  In
    lambda.py a birth time that is there is wrapped in a tuple, and the
    filter on the year raises on it; in main.py a birth time that is missing
    raises when it is read.  Neither returns the earliest time after 1990 on
    those notes. *)
Theorem C5_birthtime_breaks_the_fallback :
  forall env note_file f content,
    Fs.read_text env f = Ok content ->
    no_front_matter_date content ->
    Lambda.periodic_date note_file = Ok None ->
    (forall b, st_birthtime (f_stat f) = Some b ->
       Lambda.get_note_creation_date env note_file f = Raise AttributeError)
    /\ (st_birthtime (f_stat f) = None ->
       Main.get_note_creation_date env note_file f = Raise AttributeError).
Proof.
  intros env note_file f content Hr Hn Hp. split.
  - intros b Hb. rewrite (lambda_without_front_matter _ _ _ _ Hr Hn), Hp.
    cbn [bind]. unfold Lambda.oldest_stat_date. rewrite Hb. reflexivity.
  - intros Hb. rewrite (main_without_front_matter _ _ _ _ Hr Hn).
    change (Main.periodic_date note_file) with (Lambda.periodic_date note_file).
    rewrite Hp. cbn [bind]. unfold Main.oldest_stat_date. rewrite Hb. reflexivity.
Qed.

Lemma C5_witness :
  Lambda.get_note_creation_date env0 "/tmp/vault/A/n.md"
    (text_file (mkStat t2021 t2022 t2022 (Some t2021)) "text") = Raise AttributeError
  /\ Main.get_note_creation_date env0 "vault/A/n.md"
    (text_file (mkStat t1985 t2021 t2022 None) "text") = Raise AttributeError.
Proof.
  split.
  - apply (proj1 (C5_birthtime_breaks_the_fallback env0 "/tmp/vault/A/n.md"
             (text_file (mkStat t2021 t2022 t2022 (Some t2021)) "text") "text"
             eq_refl (or_introl eq_refl) eq_refl) t2021 eq_refl).
  - apply (proj2 (C5_birthtime_breaks_the_fallback env0 "vault/A/n.md"
             (text_file (mkStat t1985 t2021 t2022 None) "text") "text"
             eq_refl (or_introl eq_refl) eq_refl) eq_refl).
Defined.

(** The example of the specification, where lambda.py does return: times in
    1985, 2021 and 2022 and no birth time give the day in 2021. *)
Example lambda_fallback_example :
  Lambda.get_note_creation_date env0 "/tmp/vault/A/n.md"
    (text_file (mkStat t1985 t2021 t2022 None) "text") = Ok "2021-07-23".
Proof. reflexivity. Qed.

(** ** The [path] and [folder] keys *)

(** C1: what the two files put under [path] and [folder] for a note two
    folders below the vault each of them walks.  lambda.py keeps the
    segments [tmp] and [vault] of its vault in [path]; main.py keeps the last
    folder only and leaves [folder] empty.  Neither [path] is [A/sub], the
    directory of the note relative to the vault. *)
Theorem C1_path_and_folder_of_a_nested_note :
  forall env f rl rm,
    Lambda.note_to_json env "/tmp/vault/A/sub/x.md" f = Ok rl ->
    Main.note_to_json env "vault/A/sub/x.md" f = Ok rm ->
    path rl = "tmp/vault/A/sub" /\ folder rl = "sub"
    /\ path rm = "sub" /\ folder rm = "".
Proof.
  intros env f rl rm Hl Hm.
  unfold Lambda.note_to_json in Hl. unfold Main.note_to_json in Hm.
  destruct (Fs.read_text env f) as [c|]; cbn [bind] in Hl, Hm; [|discriminate].
  destruct (Lambda.get_note_creation_date env _ f); cbn [bind] in Hl; [|discriminate].
  destruct (Main.get_note_creation_date env _ f); cbn [bind] in Hm; [|discriminate].
  cbv zeta in Hl, Hm.
  injection Hl as <-. injection Hm as <-. cbn [path folder].
  repeat split; reflexivity.
Qed.

Lemma C1_witness :
  exists rl rm,
    Lambda.note_to_json env0 "/tmp/vault/A/sub/x.md" dated_note = Ok rl
    /\ Main.note_to_json env0 "vault/A/sub/x.md" dated_note = Ok rm
    /\ path rl = "tmp/vault/A/sub" /\ folder rl = "sub"
    /\ path rm = "sub" /\ folder rm = "".
Proof.
  eexists. eexists.
  split; [reflexivity|]. split; [reflexivity|].
  apply (C1_path_and_folder_of_a_nested_note env0 dated_note); reflexivity.
Defined.

(** ** Listings *)

Section FsLemmas.
Import Fs.

Lemma lookup_put_same name n es : lookup name (put name n es) = Some n.
Proof.
  induction es as [|[k m] tl IH]; cbn [put lookup].
  - now rewrite String.eqb_refl.
  - destruct (String.eqb k name) eqn:E; cbn [lookup].
    + now rewrite String.eqb_refl.
    + now rewrite E.
Qed.

Lemma lookup_put_other k name n es :
  k <> name -> lookup k (put name n es) = lookup k es.
Proof.
  intros Hk. induction es as [|[k' m] tl IH]; cbn [put lookup].
  - destruct (String.eqb name k) eqn:E; [|reflexivity].
    apply String.eqb_eq in E. congruence.
  - destruct (String.eqb k' name) eqn:E; cbn [lookup].
    + apply String.eqb_eq in E. subst k'.
      destruct (String.eqb name k) eqn:E2; [|reflexivity].
      apply String.eqb_eq in E2. congruence.
    + now rewrite IH.
Qed.

Lemma lookup_remove_same name es : lookup name (remove name es) = None.
Proof.
  induction es as [|[k m] tl IH]; cbn [remove lookup]; [reflexivity|].
  destruct (String.eqb k name) eqn:E; [exact IH|].
  cbn [lookup]. now rewrite E.
Qed.

Lemma lookup_remove_other k name es :
  k <> name -> lookup k (remove name es) = lookup k es.
Proof.
  intros Hk. induction es as [|[k' m] tl IH]; cbn [remove lookup]; [reflexivity|].
  destruct (String.eqb k' name) eqn:E; cbn [lookup].
  - apply String.eqb_eq in E. subst k'.
    destruct (String.eqb name k) eqn:E2; [|exact IH].
    apply String.eqb_eq in E2. congruence.
  - now rewrite IH.
Qed.

End FsLemmas.

(** ** The convert pass *)

Section ConvertLemmas.
Import Py Fs Flatten.
Variable env : os_env.
Variable note_to_json : string -> file -> result NoteRecord.

(** The JSON sibling of a note has another name than the note. *)
Lemma json_name_differs (file : string) :
  endswith file ".md" = true -> json_name file <> file.
Proof.
  intros He Heq. apply (f_equal String.length) in Heq.
  unfold json_name in Heq. rewrite length_append in Heq.
  rewrite (length_removesuffix _ _ He) in Heq.
  unfold endswith in He. apply andb_prop in He as [Hl _].
  apply Nat.leb_le in Hl. simpl in Heq, Hl. lia.
Qed.

(** A write that raises leaves every other entry of the directory alone,
    and a write that returns has put the document there. *)
Lemma write_json_other json_file name data es es' r k :
  write_json env json_file name data es = (es', r) ->
  k <> name -> lookup k es' = lookup k es.
Proof.
  unfold write_json. intros H Hk.
  destruct (lookup name es) as [[f|sub]|];
    try (injection H as <- <-; reflexivity);
    destruct (write_fault env json_file); injection H as <- <-;
    try reflexivity; now apply lookup_put_other.
Qed.

Lemma write_json_done json_file name data es es' :
  write_json env json_file name data es = (es', None) ->
  lookup name es' = Some (File (mkFile (new_stat env) (JsonDoc data))).
Proof.
  unfold write_json. intros H.
  destruct (lookup name es) as [[f|sub]|]; try discriminate;
    destruct (write_fault env json_file); try discriminate;
    injection H as <-; apply lookup_put_same.
Qed.

End ConvertLemmas.

(** C8: one turn of the convert loop on a note [file] of the directory.
    If the turn raises, whatever raised (reading the note, inferring its date,
    opening the JSON file, writing it), the note is still in the directory,
    untouched.  If the turn returns, the note is gone and its JSON sibling
    holds the record [note_to_json] made of it.  So the note is deleted only
    after its JSON file has been written, and the two do not coexist after a
    conversion that succeeded. *)
Theorem C8_note_deleted_only_after_json_written :
  forall env note_to_json root file f es es' r,
    Py.endswith file ".md" = true ->
    Fs.lookup file es = Some (File f) ->
    Flatten.convert_file env note_to_json root file es = (es', r) ->
    match r with
    | Some _ => Fs.lookup file es' = Some (File f)
    | None =>
        Fs.lookup file es' = None
        /\ exists data,
             note_to_json (Py.path_join root file) f = Ok data
             /\ Fs.lookup (Flatten.json_name file) es'
                = Some (File (mkFile (new_stat env) (JsonDoc data)))
    end.
Proof.
  intros env n2j root file f es es' r He Hl H.
  unfold Flatten.convert_file in H. rewrite He, Hl in H. cbn [negb] in H.
  pose proof (json_name_differs file He) as Hne.
  destruct (n2j (Py.path_join root file) f) as [data|e] eqn:Hn.
  - destruct (Flatten.write_json env _ (Flatten.json_name file) data es)
      as [es1 [e|]] eqn:Hw; injection H as <- <-.
    + rewrite (write_json_other _ _ _ _ _ _ _ file Hw); [exact Hl|].
      intros E. now symmetry in E.
    + split; [apply lookup_remove_same|].
      exists data. split; [reflexivity|].
      rewrite lookup_remove_other by exact Hne.
      exact (write_json_done _ _ _ _ _ _ Hw).
  - injection H as <- <-. exact Hl.
Qed.

Lemma C8_witness :
  Fs.lookup "n.md"
    (fst (Flatten.convert_file env0 (Lambda.note_to_json env0) "/tmp/vault/A" "n.md"
            [("n.md", File plain_note)])) = None
  /\ exists data,
       Lambda.note_to_json env0 (Py.path_join "/tmp/vault/A" "n.md") plain_note = Ok data
       /\ Fs.lookup (Flatten.json_name "n.md")
            (fst (Flatten.convert_file env0 (Lambda.note_to_json env0) "/tmp/vault/A"
                    "n.md" [("n.md", File plain_note)]))
          = Some (File (mkFile (new_stat env0) (JsonDoc data))).
Proof.
  exact (C8_note_deleted_only_after_json_written env0 (Lambda.note_to_json env0)
           "/tmp/vault/A" "n.md" plain_note [("n.md", File plain_note)] _ None
           eq_refl eq_refl eq_refl).
Defined.

Section ConvertLoop.
Import Py Fs Flatten.
Variable env : os_env.
Variable note_to_json : string -> file -> result NoteRecord.

Lemma convert_files_app root pre rest es :
  convert_files env note_to_json root (pre ++ rest) es =
  match convert_files env note_to_json root pre es with
  | (es1, None) => convert_files env note_to_json root rest es1
  | (es1, Some e) => (es1, Some e)
  end.
Proof.
  revert es. induction pre as [|x pre IH]; intros es; [reflexivity|].
  cbn [app convert_files].
  destruct (convert_file env note_to_json root x es) as [es' [e|]];
    [reflexivity | apply IH].
Qed.

(** A note whose record cannot be made stops the loop where it stands. *)
Lemma convert_file_raises root file f es e :
  endswith file ".md" = true ->
  lookup file es = Some (File f) ->
  note_to_json (path_join root file) f = Raise e ->
  convert_file env note_to_json root file es = (es, Some e).
Proof.
  intros He Hl Hn. unfold convert_file. now rewrite He, Hl, Hn.
Qed.

End ConvertLoop.

(** C4, counterexample: [a.md] has a [date:] line without a space, [b.md] is
    fine.  The [IndexError] of [a.md] ends the loop, and [b.md] is still
    there. *)
Lemma C4_counterexample : ~ convert_pass_continues_after_error.
Proof.
  intros H.
  specialize (H env0 "vault" two_notes "b.md" dated_note
                (or_intror (or_introl eq_refl)) eq_refl eq_refl eq_refl).
  vm_compute in H. discriminate H.
Qed.

(** ** The collapse pass *)

Section CollapseLemmas.
Import Py Fs Flatten.

Lemma only_files_remove_dirs es : only_files (remove_dirs es) = true.
Proof.
  induction es as [|[k n] tl IH]; [reflexivity|].
  unfold remove_dirs. cbn [filter snd].
  destruct (is_dir n) eqn:E; cbn [negb]; [exact IH|].
  cbn [only_files forallb snd]. rewrite E. exact IH.
Qed.

Lemma lookup_only_files name n es :
  only_files es = true -> lookup name es = Some n -> is_dir n = false.
Proof.
  induction es as [|[k m] tl IH]; cbn [only_files forallb lookup snd];
    [discriminate|].
  intros H Hl. apply andb_prop in H as [Hm Htl].
  destruct (String.eqb k name).
  - injection Hl as <-. now apply negb_true_iff in Hm.
  - now apply IH.
Qed.

(** Nothing lies below an entry of a listing of files. *)
Lemma lookup_path_only_files es p :
  only_files es = true -> (2 <= length p)%nat -> lookup_path p es = None.
Proof.
  intros H Hp. destruct p as [|a [|b q]]; cbn [length] in Hp; try lia.
  cbn [lookup_path]. destruct (lookup a es) as [[f|sub]|] eqn:E; try reflexivity.
  now pose proof (lookup_only_files _ _ _ H E).
Qed.

Lemma collapse_first_level_only_dirs es :
  only_dirs es = true ->
  exists es', collapse_first_level es = (es', None) /\ two_levels es' = true.
Proof.
  induction es as [|[k n] tl IH]; intros H.
  - exists []. split; reflexivity.
  - cbn [only_dirs forallb snd] in H. apply andb_prop in H as [Hn Htl].
    destruct n as [f|sub]; [discriminate|].
    destruct (IH Htl) as [tl' [E T]].
    exists ((k, Dir (collapse_folder k sub)) :: tl').
    cbn [collapse_first_level]. rewrite E. split; [reflexivity|].
    cbn [two_levels forallb snd]. unfold collapse_folder.
    rewrite only_files_remove_dirs. exact T.
Qed.

Lemma try_move_failed folder es p e :
  shutil_move p es = Raise e -> try_move folder es p = es.
Proof.
  intros H. unfold try_move. rewrite H.
  now destruct (parent_is_not_vault (folder :: p)).
Qed.

Lemma fold_left_app_one {A B} (g : A -> B -> A) l x a :
  fold_left g (l ++ [x]) a = g (fold_left g l a) x.
Proof. now rewrite fold_left_app. Qed.

End CollapseLemmas.

(** C3, counterexample: [A/x.json] and [A/sub/x.json].  The move of the
    second fails on the first; the removal of [A/sub] that ends the turn of
    [A] then takes the second with it. *)
Lemma C3_counterexample : ~ failed_move_leaves_file_in_place.
Proof.
  intros H.
  specialize (H "A" colliding [["x.json"]] ["sub"; "x.json"] [] ShutilError
                (File dated_note) eq_refl eq_refl eq_refl (le_n 2)).
  vm_compute in H. discriminate H.
Qed.

(** C3, amended: a move that fails is passed over.  The folder is as it was
    before the turn of that file, and the loop goes on with the files listed
    after it.  The file does not outlive the pass at a nested place, though:
    the turn of the folder ends with the removal of every directory in it, so
    no path of two segments or more leads anywhere afterwards. *)
Theorem C3_failed_move_is_passed_over_then_removed :
  forall folder es pre p post e,
    Flatten.rglob (Dir es) = pre ++ p :: post ->
    Flatten.shutil_move p (fold_left (Flatten.try_move folder) pre es) = Raise e ->
    fold_left (Flatten.try_move folder) (pre ++ [p]) es
    = fold_left (Flatten.try_move folder) pre es
    /\ Flatten.collapse_folder folder es
       = Flatten.remove_dirs
           (fold_left (Flatten.try_move folder) post
              (fold_left (Flatten.try_move folder) pre es))
    /\ ((2 <= length p)%nat ->
        Fs.lookup_path p (Flatten.collapse_folder folder es) = None).
Proof.
  intros folder es pre p post e Hg Hm.
  assert (T : Flatten.try_move folder (fold_left (Flatten.try_move folder) pre es) p
              = fold_left (Flatten.try_move folder) pre es).
  { exact (try_move_failed folder _ p e Hm). }
  split; [|split].
  - now rewrite fold_left_app_one.
  - unfold Flatten.collapse_folder. rewrite Hg, fold_left_app.
    cbn [fold_left]. now rewrite T.
  - intros Hp. apply lookup_path_only_files; [|exact Hp].
    apply only_files_remove_dirs.
Qed.

Lemma C3_witness :
  fold_left (Flatten.try_move "A") ([["x.json"]] ++ [["sub"; "x.json"]]) colliding
  = fold_left (Flatten.try_move "A") [["x.json"]] colliding
  /\ Flatten.collapse_folder "A" colliding
     = Flatten.remove_dirs
         (fold_left (Flatten.try_move "A") []
            (fold_left (Flatten.try_move "A") [["x.json"]] colliding))
  /\ ((2 <= length ["sub"; "x.json"])%nat ->
      Fs.lookup_path ["sub"; "x.json"] (Flatten.collapse_folder "A" colliding) = None).
Proof.
  exact (C3_failed_move_is_passed_over_then_removed "A" colliding [["x.json"]]
           ["sub"; "x.json"] [] ShutilError eq_refl eq_refl).
Defined.

(** C9, counterexample: a file directly in the vault.  It is taken for a
    first-level folder, listing it raises, and the pass ends there:
    [x.json] is a child of the vault itself and [A/sub/y.json] is still three
    levels down. *)
Lemma C9_counterexample : ~ collapse_leaves_two_levels.
Proof.
  intros H.
  specialize (H note_at_the_root note_at_the_root (Some NotADirectoryError) eq_refl).
  vm_compute in H. discriminate H.
Qed.

(** C9, amended: when every entry of the vault is a directory, the collapse
    pass returns, and afterwards every entry of the vault is a directory that
    holds files only.  In particular, of [A/x.json] and [A/sub/y.json] both
    end up directly in [A], and [A/sub] is gone. *)
Theorem C9_collapse_of_a_vault_of_folders :
  (forall es,
     only_dirs es = true ->
     exists es',
       Flatten.collapse_pass (Dir es) = (Dir es', None) /\ two_levels es' = true)
  /\ (forall fx fy,
        Flatten.collapse_pass
          (Dir [("A", Dir [("x.json", File fx); ("sub", Dir [("y.json", File fy)])])])
        = (Dir [("A", Dir [("x.json", File fx); ("y.json", File fy)])], None)).
Proof.
  split.
  - intros es H. destruct (collapse_first_level_only_dirs es H) as [es' [E T]].
    exists es'. cbn [Flatten.collapse_pass]. rewrite E. now split.
  - intros fx fy. reflexivity.
Qed.

Lemma C9_witness :
  exists es',
    Flatten.collapse_pass
      (Dir [("A", Dir colliding); ("B", Dir [("s.t", Dir [("z.json", File plain_note)])])])
    = (Dir es', None)
    /\ two_levels es' = true.
Proof.
  exact (proj1 C9_collapse_of_a_vault_of_folders
           [("A", Dir colliding); ("B", Dir [("s.t", Dir [("z.json", File plain_note)])])]
           eq_refl).
Defined.

(** ** The two entry points *)

(** What the two entry points leave of [A/sub/y.md]: [main] leaves the JSON
    file where the note was, [lambda_handler] moves it up into [A]; and the
    two records differ in [path] and [folder]. *)
Example main_on_nested_vault :
  Main.main env0 nested_vault =
  (Dir [("A", Dir [("sub", Dir [("y.json",
     File (mkFile (new_stat env0)
       (JsonDoc (mkNoteRecord "y" "2021-07-23" "2022-03-01" "2022-03-01 12:00:00"
                   "sub" "" (match f_data dated_note with Text s => s | _ => "" end)))))])])],
   None).
Proof. reflexivity. Qed.

Example lambda_handler_on_nested_vault :
  Lambda.lambda_handler env0 nested_vault =
  (Dir [("A", Dir [("y.json",
     File (mkFile (new_stat env0)
       (JsonDoc (mkNoteRecord "y" "2021-07-23" "2022-03-01" "2022-03-01 12:00:00"
                   "tmp/vault/A/sub" "sub"
                   (match f_data dated_note with Text s => s | _ => "" end)))))])],
   None).
Proof. reflexivity. Qed.

(** C2, counterexample: the vault that holds [A/sub/y.md]. *)
Lemma C2_counterexample : ~ entry_points_agree.
Proof.
  intros H. specialize (H env0 nested_vault).
  rewrite main_on_nested_vault, lambda_handler_on_nested_vault in H.
  discriminate H.
Qed.

Section EntryPoints.
Import Py.
Local Open Scope string_scope.

(** The name tests of the periodic rules see the same thing below
    [/tmp/vault] and below [vault]. *)
Lemma basename_vault (rel : string) :
  basename ("/tmp/vault/" ++ rel) = basename ("vault/" ++ rel).
Proof.
  change (basename ("/tmp/vault/" ++ rel))
    with (basename ("/tmp/vault" ++ String "/" rel)).
  change (basename ("vault/" ++ rel)) with (basename ("vault" ++ String "/" rel)).
  now rewrite !basename_after_slash.
Qed.

Lemma periodic_date_vault (rel : string) :
  Lambda.periodic_date ("/tmp/vault/" ++ rel) = Main.periodic_date ("vault/" ++ rel).
Proof.
  unfold Lambda.periodic_date, Main.periodic_date.
  rewrite basename_vault. reflexivity.
Qed.

(** The tier of the file's times does not return in both files: lambda.py
    needs the birth time to be missing, main.py needs it to be there. *)
Lemma oldest_stat_date_never_both env stats :
  is_ok (Lambda.oldest_stat_date env stats)
  && is_ok (Main.oldest_stat_date env stats) = false.
Proof.
  unfold Lambda.oldest_stat_date, Main.oldest_stat_date.
  destruct (st_birthtime stats) as [b|].
  - cbn [Lambda.after_1990 bind].
    repeat match goal with
           | |- context [if ?c then _ else _] => destruct c
           end; reflexivity.
  - cbn [bind is_ok]. apply andb_false_r.
Qed.

Lemma created_date_vault env rel f dl dm :
  Lambda.get_note_creation_date env ("/tmp/vault/" ++ rel) f = Ok dl ->
  Main.get_note_creation_date env ("vault/" ++ rel) f = Ok dm ->
  dl = dm.
Proof.
  unfold Lambda.get_note_creation_date, Main.get_note_creation_date.
  destruct (Fs.read_text env f) as [c|]; cbn [bind]; [|discriminate].
  change Main.metadata_date with Lambda.metadata_date.
  destruct (if startswith c "---" then Lambda.metadata_date (split c (String "010" ""))
            else Ok None) as [[d|]|]; cbn [bind]; try discriminate.
  - congruence.
  - rewrite periodic_date_vault.
    destruct (Main.periodic_date ("vault/" ++ rel)) as [[d|]|]; cbn [bind];
      try discriminate; [congruence|].
    intros Hl Hm. pose proof (oldest_stat_date_never_both env (f_stat f)) as N.
    rewrite Hl, Hm in N. discriminate N.
Qed.

End EntryPoints.

(** ** The prune pass *)

Section PruneLemmas.
Import Py Fs Flatten.

(** The loop of [prune_walk] over a listing, entry by entry. *)
Lemma prune_walk_cons name c tl :
  entries_of (prune_walk (Dir ((name, c) :: tl))) =
  if kept name c
  then (name, prune_walk c) :: entries_of (prune_walk (Dir tl))
  else entries_of (prune_walk (Dir tl)).
Proof.
  destruct c as [f|sub]; cbn [prune_walk entries_of kept].
  - destruct (endswith name ".md"); reflexivity.
  - destruct (hidden name); reflexivity.
Qed.

Lemma prune_walk_dir es : prune_walk (Dir es) = Dir (entries_of (prune_walk (Dir es))).
Proof. reflexivity. Qed.

Lemma lookup_prune_inv name n es :
  lookup name (entries_of (prune_walk (Dir es))) = Some n ->
  exists c, kept name c = true /\ n = prune_walk c.
Proof.
  induction es as [|[k c] tl IH]; [discriminate|].
  rewrite prune_walk_cons. destruct (kept k c) eqn:K; [|exact IH].
  cbn [lookup]. destruct (String.eqb k name) eqn:E; [|exact IH].
  apply String.eqb_eq in E. subst k. intros H. injection H as <-.
  now exists c.
Qed.

Lemma lookup_prune_kept name c es :
  lookup name es = Some c -> kept name c = true ->
  lookup name (entries_of (prune_walk (Dir es))) = Some (prune_walk c).
Proof.
  induction es as [|[k c'] tl IH]; [discriminate|].
  cbn [lookup]. rewrite prune_walk_cons.
  destruct (String.eqb k name) eqn:E.
  - apply String.eqb_eq in E. subst k. intros H K. injection H as ->.
    rewrite K. cbn [lookup]. now rewrite String.eqb_refl.
  - intros H K. destruct (kept k c'); [|now apply IH].
    cbn [lookup]. rewrite E. now apply IH.
Qed.

End PruneLemmas.

(** X1: after the prune pass no path of the vault goes through, or ends at, a
    directory whose name starts with [.] or [_], and every file the vault
    still holds has a name that ends in [.md]. *)
Theorem prune_leaves_notes_in_visible_folders :
  forall p es n,
    Fs.lookup_path p (entries_of (Flatten.prune_walk (Dir es))) = Some n ->
    (forall s, In s (removelast p) -> Flatten.hidden s = false)
    /\ kept (last p "") n = true.
Proof.
  induction p as [|a p IH]; intros es n H; [discriminate|].
  destruct p as [|b q].
  - cbn [Fs.lookup_path] in H. apply lookup_prune_inv in H as [c [K ->]].
    split; [intros s []|]. cbn [last].
    destruct c; exact K.
  - cbn [Fs.lookup_path] in H.
    destruct (Fs.lookup a _) as [[f|sub]|] eqn:E; try discriminate.
    apply lookup_prune_inv in E as [c [K Ec]].
    destruct c as [f|sub']; [discriminate|].
    assert (sub = entries_of (Flatten.prune_walk (Dir sub'))) as ->
      by now rewrite <- Ec.
    specialize (IH sub' n H) as [IH1 IH2].
    split.
    + intros s Hs. change (removelast (a :: b :: q)) with (a :: removelast (b :: q)) in Hs.
      destruct Hs as [<-|Hs]; [|now apply IH1].
      cbn [kept] in K. now apply negb_true_iff in K.
    + exact IH2.
Qed.

Lemma prune_leaves_notes_in_visible_folders_witness :
  (forall s, In s (removelast ["A"; "sub"; "y.md"]) -> Flatten.hidden s = false)
  /\ kept (last ["A"; "sub"; "y.md"] "") (File dated_note) = true.
Proof.
  exact (prune_leaves_notes_in_visible_folders ["A"; "sub"; "y.md"] sample_vault
           (File dated_note) eq_refl).
Defined.

(** X2: the prune pass neither removes nor changes a note that lies in no
    hidden directory: a file whose name ends in [.md], below directories none
    of which has a name that starts with [.] or [_], is after the pass where
    it was, as it was. *)
Theorem prune_keeps_notes_of_visible_folders :
  forall p es f,
    Fs.lookup_path p es = Some (File f) ->
    (forall s, In s (removelast p) -> Flatten.hidden s = false) ->
    Py.endswith (last p "") ".md" = true ->
    Fs.lookup_path p (entries_of (Flatten.prune_walk (Dir es))) = Some (File f).
Proof.
  induction p as [|a p IH]; intros es f H Hh He; [discriminate|].
  destruct p as [|b q].
  - cbn [Fs.lookup_path] in *. cbn [last] in He.
    exact (lookup_prune_kept a (File f) es H He).
  - cbn [Fs.lookup_path] in H |- *.
    destruct (Fs.lookup a es) as [[g|sub]|] eqn:E; try discriminate.
    assert (K : kept a (Dir sub) = true).
    { cbn [kept]. apply negb_true_iff. apply Hh.
      change (removelast (a :: b :: q)) with (a :: removelast (b :: q)).
      now left. }
    rewrite (lookup_prune_kept a (Dir sub) es E K), prune_walk_dir.
    apply IH; [exact H | | exact He].
    intros s Hs. apply Hh.
    change (removelast (a :: b :: q)) with (a :: removelast (b :: q)).
    now right.
Qed.

Lemma prune_keeps_notes_of_visible_folders_witness :
  Fs.lookup_path ["A"; "sub"; "y.md"]
    (entries_of (Flatten.prune_walk (Dir sample_vault))) = Some (File dated_note).
Proof.
  apply (prune_keeps_notes_of_visible_folders ["A"; "sub"; "y.md"] sample_vault
           dated_note eq_refl); [|reflexivity].
  intros s [<-|[<-|[]]]; reflexivity.
Defined.

(** Induction on a tree: a property of every entry of a directory gives the
    property of the directory. *)
Fixpoint node_induction (P : node -> Prop)
    (HF : forall f, P (File f))
    (HD : forall es, Forall (fun e => P (snd e)) es -> P (Dir es))
    (n : node) {struct n} : P n :=
  match n with
  | File f => HF f
  | Dir es =>
      HD es ((fix go (l : entries) : Forall (fun e => P (snd e)) l :=
                match l with
                | [] => Forall_nil _
                | e :: tl => Forall_cons e (node_induction P HF HD (snd e)) (go tl)
                end) es)
  end.

Lemma kept_prune_walk name c : kept name (Flatten.prune_walk c) = kept name c.
Proof. now destruct c. Qed.

Lemma prune_entries_idempotent es :
  Forall (fun e => Flatten.prune_walk (Flatten.prune_walk (snd e))
                   = Flatten.prune_walk (snd e)) es ->
  entries_of (Flatten.prune_walk (Dir (entries_of (Flatten.prune_walk (Dir es)))))
  = entries_of (Flatten.prune_walk (Dir es)).
Proof.
  induction es as [|[k c] tl IHtl]; intros IH; [reflexivity|].
  inversion IH as [|? ? Hc Htl]; subst. cbn [snd] in Hc.
  rewrite (prune_walk_cons k c tl). destruct (kept k c) eqn:K.
  - rewrite prune_walk_cons, kept_prune_walk, K, Hc.
    f_equal. now apply IHtl.
  - now apply IHtl.
Qed.

(** X3: pruning a pruned vault changes nothing. *)
Theorem prune_walk_idempotent :
  forall t, Flatten.prune_walk (Flatten.prune_walk t) = Flatten.prune_walk t.
Proof.
  induction t as [f|es IH] using node_induction; [reflexivity|].
  change (Dir (entries_of (Flatten.prune_walk
                 (Dir (entries_of (Flatten.prune_walk (Dir es))))))
          = Dir (entries_of (Flatten.prune_walk (Dir es)))).
  f_equal. now apply prune_entries_idempotent.
Qed.

(** ** The weekly rule *)

Section Weekly.
Import Datetime Strptime.
Local Open Scope Z_scope.



End Weekly.

Section Suffixes.
Import Py.
Local Open Scope string_scope.

Lemma substring_0_length (s : string) : String.substring 0 (String.length s) s = s.
Proof. induction s as [|c s IH]; cbn; [reflexivity | now rewrite IH]. Qed.

Lemma substring_append_right (a p : string) :
  String.substring (String.length a) (String.length p) (a ++ p) = p.
Proof.
  induction a as [|c a IH]; cbn [String.length append].
  - apply substring_0_length.
  - cbn [String.substring]. exact IH.
Qed.

Lemma substring_append_left (a p : string) :
  String.substring 0 (String.length a) (a ++ p) = a.
Proof.
  induction a as [|c a IH]; cbn [String.length append String.substring].
  - now destruct p.
  - now rewrite IH.
Qed.

(** The end of a string that was put together. *)
Lemma endswith_append (a p q : string) :
  String.length p = String.length q ->
  endswith (a ++ p) q = String.eqb p q.
Proof.
  intros L. unfold endswith. rewrite length_append, <- L.
  replace (String.length a + String.length p - String.length p)%nat
    with (String.length a) by lia.
  rewrite substring_append_right.
  replace (Nat.leb _ _) with true; [reflexivity|].
  symmetry. apply Nat.leb_le. lia.
Qed.

Lemma removesuffix_append (a p : string) :
  p <> "" -> removesuffix (a ++ p) p = a.
Proof.
  intros Hp. unfold removesuffix.
  rewrite (endswith_append a p p eq_refl), String.eqb_refl.
  destruct (String.eqb p "") eqn:E; [apply String.eqb_eq in E; contradiction|].
  cbn [andb negb]. rewrite length_append.
  replace (String.length a + String.length p - String.length p)%nat
    with (String.length a) by lia.
  apply substring_append_left.
Qed.

Lemma substring_cut (n : nat) (s : string) :
  s = String.substring 0 n s ++ String.substring n (String.length s - n) s.
Proof.
  revert n. induction s as [|c s IH]; intros n.
  - now destruct n.
  - destruct n as [|n]; cbn [String.substring String.length Nat.sub append].
    + now rewrite substring_0_length.
    + f_equal. apply IH.
Qed.

(** A string that ends in [p] is what [removesuffix] leaves of it, and
    [p]. *)
Lemma endswith_split (s p : string) :
  endswith s p = true -> s = removesuffix s p ++ p.
Proof.
  intros H. unfold removesuffix. rewrite H.
  destruct (String.eqb p "") eqn:E.
  - apply String.eqb_eq in E. subst p. cbn. now rewrite append_empty_r.
  - cbn [andb negb]. unfold endswith in H.
    apply andb_prop in H as [Hl He]. apply Nat.leb_le in Hl.
    apply String.eqb_eq in He.
    pose proof (substring_cut (String.length s - String.length p) s) as C.
    replace (String.length s - (String.length s - String.length p))%nat
      with (String.length p) in C by lia.
    now rewrite He in C.
Qed.

End Suffixes.

Section WeeklyRule.
Import Py Datetime Strptime.
Local Open Scope string_scope.







End WeeklyRule.

Section WeeklyRuleResult.
Import Py Datetime Strptime.
Local Open Scope string_scope.




End WeeklyRuleResult.



(** ** The daily rule *)

(** X5: for a note without a front-matter date, below [/Periodic/] and
    [/Daily Notes/], the date is the file name up to its first space; a file
    name without a space is returned whole, its [.md] included. *)
Theorem daily_rule_cuts_the_file_name_at_its_first_space :
  forall env note_file f content,
    Fs.read_text env f = Ok content ->
    no_front_matter_date content ->
    Py.contains "/Periodic/" note_file = true ->
    Py.contains "/Daily Notes/" note_file = true ->
    (forall d rest,
       Py.basename note_file = (d ++ " " ++ rest)%string ->
       Py.contains " " d = false ->
       Lambda.get_note_creation_date env note_file f = Ok d
       /\ Main.get_note_creation_date env note_file f = Ok d)
    /\ (Py.contains " " (Py.basename note_file) = false ->
        Lambda.get_note_creation_date env note_file f = Ok (Py.basename note_file)
        /\ Main.get_note_creation_date env note_file f = Ok (Py.basename note_file)).
Proof.
  intros env nf f content Hr Hn Hp Hd.
  rewrite (lambda_without_front_matter _ _ _ _ Hr Hn).
  rewrite (main_without_front_matter _ _ _ _ Hr Hn).
  change (Main.periodic_date nf) with (Lambda.periodic_date nf).
  unfold Lambda.periodic_date. rewrite Hp, Hd. cbn [bind].
  split.
  - intros d rest Hb Hs. rewrite Hb.
    change (d ++ " " ++ rest)%string with (d ++ String " " rest)%string.
    rewrite (split_first_sep " " d rest Hs). now split.
  - intros Hs. rewrite (split_no_sep " " _ Hs). now split.
Qed.

Lemma daily_rule_cuts_the_file_name_at_its_first_space_witness :
  Lambda.get_note_creation_date env0
    "/tmp/vault/Periodic/Daily Notes/2021-07-23.md" plain_note = Ok "2021-07-23.md"
  /\ Main.get_note_creation_date env0
    "/tmp/vault/Periodic/Daily Notes/2021-07-23.md" plain_note = Ok "2021-07-23.md".
Proof.
  exact (proj2 (daily_rule_cuts_the_file_name_at_its_first_space env0
                  "/tmp/vault/Periodic/Daily Notes/2021-07-23.md" plain_note "text"
                  eq_refl (or_introl eq_refl) eq_refl eq_refl) eq_refl).
Defined.

(** ** The tier of the file's times *)

Section Fallback.
Import Datetime.
Local Open Scope Z_scope.

(** [min] returns an element of the list, and none of the list comes before
    it. *)
Lemma min_from_spec l : forall best,
  In (min_from best l) (best :: l)
  /\ forall d, In d (best :: l) -> key (min_from best l) <= key d.
Proof.
  induction l as [|x l IH]; intros best; cbn [min_from].
  - split; [now left|]. intros d [<-|[]]. lia.
  - destruct (IH (if key x <? key best then x else best)) as [I M]. split.
    + destruct I as [I|I]; [|now right; right].
      rewrite <- I. destruct (key x <? key best); [right; now left | now left].
    + intros d Hd.
      assert (Hb : key (min_from (if key x <? key best then x else best) l)
                   <= key (if key x <? key best then x else best))
        by (apply M; now left).
      destruct (key x <? key best) eqn:E;
        [apply Z.ltb_lt in E | apply Z.ltb_ge in E];
        destruct Hd as [<-|[<-|Hd]]; try lia; apply M; now right.
Qed.

Lemma py_min_spec l :
  (l = [] -> py_min l = Raise ValueError)
  /\ (l <> [] ->
      exists d, In d l /\ (forall d', In d' l -> key d <= key d') /\ py_min l = Ok d).
Proof.
  destruct l as [|b l]; split; try reflexivity; try discriminate; try congruence.
  intros _. exists (min_from b l).
  destruct (min_from_spec l b) as [I M]. now repeat split.
Qed.

(** One second after the epoch is in 1969 or 1970 in every time zone. *)
Lemma sentinel_year tz :
  -86400 <= tz <= 86400 -> year (fromtimestamp tz 1) <= 1990.
Proof.
  intros H. unfold fromtimestamp.
  assert (D : (1 + tz) / 86400 = -1 \/ (1 + tz) / 86400 = 0 \/ (1 + tz) / 86400 = 1)
    by (Z.to_euclidean_division_equations; lia).
  destruct D as [-> | [-> | ->]]; cbn; lia.
Qed.

End Fallback.

Section FallbackTier.
Import Datetime.
Local Open Scope Z_scope.

Lemma after_1990_datetimes l :
  Lambda.after_1990 (map Lambda.Dt l) = Ok (filter (fun d => 1990 <? year d) l).
Proof.
  induction l as [|d l IH]; [reflexivity|].
  cbn [map Lambda.after_1990 filter]. rewrite IH. cbn [bind].
  now destruct (1990 <? year d).
Qed.

Lemma lambda_oldest_without_birthtime env stats :
  -86400 <= utcoffset env <= 86400 ->
  st_birthtime stats = None ->
  Lambda.oldest_stat_date env stats =
  (d <- py_min (recent_times (utcoffset env)
                  [st_ctime stats; st_mtime stats; st_atime stats]) ;;
   Ok (strftime_ymd d)).
Proof.
  intros Htz Hb. unfold Lambda.oldest_stat_date. rewrite Hb.
  change [Lambda.Dt (fromtimestamp (utcoffset env) (st_ctime stats));
          Lambda.Dt (fromtimestamp (utcoffset env) (st_mtime stats));
          Lambda.Dt (fromtimestamp (utcoffset env) (st_atime stats));
          Lambda.Dt (fromtimestamp (utcoffset env) 1)]
    with (map Lambda.Dt
            (map (fromtimestamp (utcoffset env))
               ([st_ctime stats; st_mtime stats; st_atime stats] ++ [1]))).
  rewrite after_1990_datetimes, map_app, filter_app. cbn [bind].
  pose proof (sentinel_year (utcoffset env) Htz) as S.
  cbn [map filter] in *.
  destruct (1990 <? year (fromtimestamp (utcoffset env) 1)) eqn:E;
    [apply Z.ltb_lt in E; lia|].
  rewrite app_nil_r. reflexivity.
Qed.

End FallbackTier.

(** X6: lambda.py on a file without a birth time, in a zone within a day of
    UTC.  The tier of the file's times returns the day of the earliest of the
    change, modify and access times that lie after 1990, formatted
    [YYYY-MM-DD]; when none of the three does, it raises [ValueError] and
    makes up no date. *)
Theorem lambda_fallback_is_the_earliest_time_after_1990 :
  forall env stats,
    (-86400 <= utcoffset env <= 86400)%Z ->
    st_birthtime stats = None ->
    let recent :=
      recent_times (utcoffset env) [st_ctime stats; st_mtime stats; st_atime stats] in
    (recent = [] -> Lambda.oldest_stat_date env stats = Raise ValueError)
    /\ (recent <> [] ->
        exists d,
          In d recent
          /\ (forall d', In d' recent -> (Datetime.key d <= Datetime.key d')%Z)
          /\ Lambda.oldest_stat_date env stats = Ok (Datetime.strftime_ymd d)).
Proof.
  intros env stats Htz Hb recent.
  rewrite (lambda_oldest_without_birthtime env stats Htz Hb). fold recent.
  destruct (py_min_spec recent) as [E N]. split.
  - intros H. now rewrite (E H).
  - intros H. destruct (N H) as [d [I [M P]]].
    exists d. rewrite P. now repeat split.
Qed.

Lemma lambda_fallback_is_the_earliest_time_after_1990_witness :
  exists d,
    In d (recent_times 0 [t1985; t2022; t2021])
    /\ (forall d', In d' (recent_times 0 [t1985; t2022; t2021]) ->
        (Datetime.key d <= Datetime.key d')%Z)
    /\ Lambda.oldest_stat_date env0 (mkStat t1985 t2022 t2021 None)
       = Ok (Datetime.strftime_ymd d).
Proof.
  assert (Htz : (-86400 <= utcoffset env0 <= 86400)%Z) by (cbn; lia).
  apply (proj2 (lambda_fallback_is_the_earliest_time_after_1990 env0
                  (mkStat t1985 t2022 t2021 None) Htz eq_refl)).
  discriminate.
Defined.

(** X7: main.py on a file with a birth time.  The tier of the file's times
    returns the day of the earliest of the change, modify, access and birth
    times that lie after 1990; when none of the four does, it raises
    [ValueError]. *)
Theorem main_fallback_is_the_earliest_time_after_1990 :
  forall env stats b,
    st_birthtime stats = Some b ->
    let recent :=
      recent_times (utcoffset env)
        [st_ctime stats; st_mtime stats; st_atime stats; b] in
    (recent = [] -> Main.oldest_stat_date env stats = Raise ValueError)
    /\ (recent <> [] ->
        exists d,
          In d recent
          /\ (forall d', In d' recent -> (Datetime.key d <= Datetime.key d')%Z)
          /\ Main.oldest_stat_date env stats = Ok (Datetime.strftime_ymd d)).
Proof.
  intros env stats b Hb recent.
  unfold Main.oldest_stat_date. rewrite Hb. cbn [bind].
  change (filter _ _) with recent.
  destruct (py_min_spec recent) as [E N]. split.
  - intros H. now rewrite (E H).
  - intros H. destruct (N H) as [d [I [M P]]].
    exists d. rewrite P. now repeat split.
Qed.

Lemma main_fallback_is_the_earliest_time_after_1990_witness :
  Main.oldest_stat_date env0 (mkStat 0 1 2 (Some 3%Z)) = Raise ValueError.
Proof.
  exact (proj1 (main_fallback_is_the_earliest_time_after_1990 env0
                  (mkStat 0 1 2 (Some 3%Z)) 3%Z eq_refl) eq_refl).
Defined.

(** ** Paths cut at their slashes *)

Section PathLemmas.
Import Py.
Local Open Scope string_scope.

Lemma contains_char_cons c x s :
  contains (String c "") (String x s) = Ascii.eqb c x || contains (String c "") s.
Proof. cbn [contains]. now rewrite prefix_char. Qed.

Lemma contains_char_append c a b :
  contains (String c "") (a ++ b)
  = contains (String c "") a || contains (String c "") b.
Proof.
  induction a as [|x a IH].
  - cbn [append]. destruct b; reflexivity.
  - cbn [append]. rewrite !contains_char_cons, IH. apply orb_assoc.
Qed.

(** The pieces [split] cuts at a character do not hold it. *)
Lemma split_go_pieces c s : forall cur,
  contains (String c "") cur = false ->
  Forall (fun p => contains (String c "") p = false) (split_go (String c "") 0 cur s).
Proof.
  induction s as [|x s IH]; intros cur Hc; cbn [split_go].
  - now constructor.
  - rewrite prefix_char. destruct (Ascii.eqb c x) eqn:E.
    + constructor; [exact Hc|]. cbn [String.length Nat.sub]. now apply IH.
    + apply IH. rewrite contains_char_append, Hc, contains_char_cons, E.
      reflexivity.
Qed.

Lemma split_pieces c s :
  Forall (fun p => contains (String c "") p = false) (split s (String c "")).
Proof. apply split_go_pieces. reflexivity. Qed.

Lemma last_Forall {A} (P : A -> Prop) l d : Forall P l -> P d -> P (last l d).
Proof.
  induction l as [|x l IH]; intros F Hd; [exact Hd|].
  inversion F; subst. destruct l; [assumption|]. now apply IH.
Qed.

(** A name without a slash is its own base name and has no directory. *)
Lemma basename_slash_free s : slash_free s -> basename s = s.
Proof.
  unfold slash_free, basename. induction s as [|c s IH]; intros H; [reflexivity|].
  rewrite contains_char_cons in H. apply orb_false_iff in H as [Hc Hs].
  cbn [after_last_slash]. rewrite Hs.
  rewrite Ascii.eqb_sym in Hc. now rewrite Hc.
Qed.

Lemma dirname_slash_free s : slash_free s -> dirname s = "".
Proof.
  intros H. unfold dirname. rewrite (basename_slash_free s H), Nat.sub_diag.
  now destruct s.
Qed.

(** What follows the last slash of a path is its base name. *)
Lemma basename_join a b : slash_free b -> basename (a ++ String "/" b) = b.
Proof.
  intros H. rewrite basename_after_slash. unfold basename.
  cbn [after_last_slash]. unfold slash_free in H. now rewrite H.
Qed.

(** Cutting at the slashes what was joined with slashes gives the segments
    back. *)
Lemma split_join segs :
  segs <> [] -> Forall slash_free segs -> split (join "/" segs) "/" = segs.
Proof.
  induction segs as [|a l IH]; intros Hne F; [contradiction|].
  inversion F as [|? ? Ha Fl]; subst. destruct l as [|b l].
  - cbn [join String.concat]. now apply split_no_sep.
  - change (join "/" (a :: b :: l)) with (a ++ String "/" (join "/" (b :: l))).
    rewrite (split_first_sep "/" a _ Ha). f_equal.
    apply IH; [discriminate | exact Fl].
Qed.

End PathLemmas.

(** X8: in main.py, whatever the path of the note, [path] is one segment,
    the name of the directory the note is in, and [folder] is empty. *)
Theorem main_path_is_one_segment_and_folder_is_empty :
  forall env note_file f r,
    Main.note_to_json env note_file f = Ok r ->
    path r = Py.index_last (Py.split (Py.dirname note_file) "/")
    /\ slash_free (path r)
    /\ folder r = "".
Proof.
  intros env nf f r H. unfold Main.note_to_json in H.
  destruct (Fs.read_text env f) as [c|]; cbn [bind] in H; [|discriminate].
  destruct (Main.get_note_creation_date env nf f); cbn [bind] in H; [|discriminate].
  cbv zeta in H. injection H as <-. cbn [path folder].
  assert (S : slash_free (Py.index_last (Py.split (Py.dirname nf) "/"))).
  { unfold Py.index_last. apply last_Forall; [apply split_pieces | reflexivity]. }
  split; [reflexivity|]. split; [exact S|].
  now rewrite (dirname_slash_free _ S).
Qed.

Lemma main_path_is_one_segment_and_folder_is_empty_witness :
  exists r,
    Main.note_to_json env0 "vault/Projects/2023/plan.md" dated_note = Ok r
    /\ path r = Py.index_last (Py.split (Py.dirname "vault/Projects/2023/plan.md") "/")
    /\ slash_free (path r)
    /\ folder r = "".
Proof.
  eexists. split; [reflexivity|].
  apply (main_path_is_one_segment_and_folder_is_empty env0
           "vault/Projects/2023/plan.md" dated_note).
  reflexivity.
Defined.

Section JoinedPaths.
Import Py.
Local Open Scope string_scope.

Lemma join_snoc segs file :
  segs <> [] ->
  join "/" (segs ++ [file])%list = join "/" segs ++ String "/" file.
Proof.
  induction segs as [|d segs IH]; intros Hne; [contradiction|].
  destruct segs as [|d' segs']; [reflexivity|].
  change (join "/" ((d :: d' :: segs') ++ [file])%list)
    with (d ++ String "/" (join "/" ((d' :: segs') ++ [file])%list)).
  rewrite IH by discriminate.
  change (join "/" (d :: d' :: segs'))
    with (d ++ String "/" (join "/" (d' :: segs'))).
  now rewrite append_assoc.
Qed.

Lemma basename_joined segs file :
  slash_free file -> basename (join "/" (segs ++ [file])%list) = file.
Proof.
  intros Hf. destruct segs as [|d segs].
  - cbn. now apply basename_slash_free.
  - rewrite join_snoc by discriminate. now apply basename_join.
Qed.

Lemma inner_segments vault dirs file :
  slash_free vault -> Forall slash_free dirs -> slash_free file ->
  slice_1_m1 (split (join "/" (vault :: dirs ++ [file])%list) "/") = dirs.
Proof.
  intros Hv Hd Hf.
  rewrite split_join.
  - unfold slice_1_m1. cbn [tl]. apply removelast_last.
  - discriminate.
  - constructor; [exact Hv|]. apply Forall_app. split; [exact Hd|].
    now constructor.
Qed.

End JoinedPaths.

(** X9: in lambda.py, for a note below a vault that is named by one segment
    without a leading slash, [vault/d1/../dn/file], [title] is the file name
    without [.md], [path] is [d1/../dn], the directory of the note relative
    to the vault, and [folder] is [dn], the empty string for a note directly
    in the vault. *)
Theorem lambda_record_below_a_one_segment_vault :
  forall env vault dirs file f r,
    slash_free vault -> Forall slash_free dirs -> slash_free file ->
    Lambda.note_to_json env (Py.join "/" (vault :: dirs ++ [file])) f = Ok r ->
    title r = Py.removesuffix file ".md"
    /\ path r = Py.join "/" dirs
    /\ folder r = last dirs "".
Proof.
  intros env vault dirs file f r Hv Hd Hf H. unfold Lambda.note_to_json in H.
  rewrite (inner_segments vault dirs file Hv Hd Hf) in H.
  change (vault :: dirs ++ [file]) with ((vault :: dirs) ++ [file]) in H.
  rewrite (basename_joined (vault :: dirs) file Hf) in H.
  assert (L : Py.index_last (Py.split (Py.join "/" dirs) "/") = last dirs "").
  { unfold Py.index_last. destruct dirs as [|d dirs]; [reflexivity|].
    rewrite split_join; [reflexivity | discriminate | exact Hd]. }
  rewrite L in H.
  destruct (Fs.read_text env f) as [c|]; cbn [bind] in H; [|discriminate].
  destruct (Lambda.get_note_creation_date env _ f); cbn [bind] in H; [|discriminate].
  cbv zeta in H. injection H as <-. cbn [title path folder].
  now repeat split.
Qed.

Lemma lambda_record_below_a_one_segment_vault_witness :
  exists r,
    Lambda.note_to_json env0 (Py.join "/" ("vault" :: ["A"; "sub"] ++ ["y.md"])) dated_note
    = Ok r
    /\ title r = Py.removesuffix "y.md" ".md"
    /\ path r = Py.join "/" ["A"; "sub"]
    /\ folder r = last ["A"; "sub"] "".
Proof.
  eexists. split; [reflexivity|].
  apply (lambda_record_below_a_one_segment_vault env0 "vault" ["A"; "sub"] "y.md"
           dated_note); try reflexivity.
  repeat constructor.
Defined.

(** ** What the collapse pass leaves alone *)

Section CollapseKeeps.
Import Py Fs Flatten.

Lemma lookup_app k (a b : entries) :
  lookup k (a ++ b) = match lookup k a with
                      | Some n => Some n
                      | None => lookup k b
                      end.
Proof.
  induction a as [|[k' n] a IH]; [reflexivity|].
  cbn [app lookup]. now destruct (String.eqb k' k).
Qed.

(** A move that succeeds leaves the files of the folder itself as they
    are. *)
Lemma shutil_move_keeps_files p es es' k f :
  shutil_move p es = Ok es' ->
  lookup k es = Some (File f) -> lookup k es' = Some (File f).
Proof.
  unfold shutil_move. intros H Hk.
  destruct (lookup (last p "") es) eqn:El; [discriminate|].
  destruct (lookup_path p es) as [n|] eqn:Ep; [|discriminate].
  injection H as <-. rewrite lookup_app.
  assert (R : lookup k (remove_path p es) = Some (File f)).
  { destruct p as [|a [|b q]].
    - discriminate.
    - cbn [lookup_path last] in *. congruence.
    - cbn [remove_path]. cbn [lookup_path] in Ep.
      destruct (lookup a es) as [[g|sub]|] eqn:Ea; try discriminate.
      rewrite lookup_put_other; [exact Hk|].
      intros ->. congruence. }
  now rewrite R.
Qed.

Lemma try_move_keeps_files folder es p k f :
  lookup k es = Some (File f) -> lookup k (try_move folder es p) = Some (File f).
Proof.
  intros Hk. unfold try_move.
  destruct (parent_is_not_vault (folder :: p)); [|exact Hk].
  destruct (shutil_move p es) as [es'|e] eqn:E; [|exact Hk].
  exact (shutil_move_keeps_files _ _ _ _ _ E Hk).
Qed.

Lemma moves_keep_files folder ps : forall es k f,
  lookup k es = Some (File f) ->
  lookup k (fold_left (try_move folder) ps es) = Some (File f).
Proof.
  induction ps as [|p ps IH]; intros es k f Hk; [exact Hk|].
  cbn [fold_left]. apply IH. now apply try_move_keeps_files.
Qed.

Lemma remove_dirs_keeps_files es k f :
  lookup k es = Some (File f) -> lookup k (remove_dirs es) = Some (File f).
Proof.
  induction es as [|[k' n] es IH]; [discriminate|].
  unfold remove_dirs. cbn [lookup filter snd].
  destruct (String.eqb k' k) eqn:E.
  - intros H. injection H as ->. cbn [is_dir negb lookup]. now rewrite E.
  - intros H. destruct (negb (is_dir n)); [cbn [lookup]; rewrite E|]; now apply IH.
Qed.

Lemma collapse_folder_keeps_files folder es k f :
  lookup k es = Some (File f) ->
  lookup k (collapse_folder folder es) = Some (File f).
Proof.
  intros Hk. unfold collapse_folder.
  apply remove_dirs_keeps_files. now apply moves_keep_files.
Qed.

(** A first-level folder is, after the pass, collapsed or, when the pass
    raised before its turn, as it was. *)
Lemma collapse_first_level_folder l : forall l' r a sub,
  collapse_first_level l = (l', r) ->
  lookup a l = Some (Dir sub) ->
  lookup a l' = Some (Dir sub) \/ lookup a l' = Some (Dir (collapse_folder a sub)).
Proof.
  induction l as [|[k n] tl IH]; intros l' r a sub H Ha; [discriminate|].
  destruct n as [g|s]; cbn [collapse_first_level] in H.
  - injection H as <- <-. now left.
  - destruct (collapse_first_level tl) as [tl' r'] eqn:E.
    injection H as <- <-. cbn [lookup] in Ha |- *.
    destruct (String.eqb k a) eqn:Ek.
    + injection Ha as ->. apply String.eqb_eq in Ek. subst k. now right.
    + exact (IH _ _ _ _ eq_refl Ha).
Qed.

End CollapseKeeps.

(** X10: the collapse pass neither removes nor overwrites a file that is a
    direct child of a first-level folder: it is afterwards where it was, as
    it was, whether the pass returned or raised. *)
Theorem collapse_keeps_the_files_of_first_level_folders :
  forall es es' r a name f,
    Flatten.collapse_pass (Dir es) = (Dir es', r) ->
    Fs.lookup_path [a; name] es = Some (File f) ->
    Fs.lookup_path [a; name] es' = Some (File f).
Proof.
  intros es es' r a name f H Hl. cbn [Flatten.collapse_pass] in H.
  destruct (Flatten.collapse_first_level es) as [l' r'] eqn:E.
  injection H as <- <-. cbn [Fs.lookup_path] in Hl |- *.
  destruct (Fs.lookup a es) as [[g|sub]|] eqn:Ea; try discriminate.
  destruct (collapse_first_level_folder _ _ _ _ _ E Ea) as [-> | ->].
  - exact Hl.
  - now apply collapse_folder_keeps_files.
Qed.

Lemma collapse_keeps_the_files_of_first_level_folders_witness :
  Fs.lookup_path ["A"; "x.json"]
    (entries_of (fst (Flatten.collapse_pass (Dir [("A", Dir colliding)]))))
  = Some (File plain_note).
Proof.
  exact (collapse_keeps_the_files_of_first_level_folders [("A", Dir colliding)]
           _ None "A" "x.json" plain_note eq_refl eq_refl).
Defined.

(** ** The convert loop over a directory *)

Section ConvertFrame.
Import Py Fs Flatten.
Local Open Scope string_scope.
Variable env : os_env.
Variable note_to_json : string -> file -> result NoteRecord.

Lemma substring_append_skip (a p : string) n m :
  String.substring (String.length a + n) m (a ++ p) = String.substring n m p.
Proof. induction a as [|c a IH]; [reflexivity | exact IH]. Qed.

(** The end of a string is the end of its last part, when that part is long
    enough. *)
Lemma endswith_append_long (a p q : string) :
  (String.length q <= String.length p)%nat ->
  endswith (a ++ p) q = endswith p q.
Proof.
  intros L. unfold endswith. rewrite length_append.
  replace (String.length a + String.length p - String.length q)%nat
    with (String.length a + (String.length p - String.length q))%nat by lia.
  rewrite substring_append_skip.
  replace (Nat.leb (String.length q) (String.length a + String.length p)) with true
    by (symmetry; apply Nat.leb_le; lia).
  replace (Nat.leb (String.length q) (String.length p)) with true
    by (symmetry; apply Nat.leb_le; lia).
  reflexivity.
Qed.

Lemma json_name_is_no_note (file : string) : endswith (json_name file) ".md" = false.
Proof.
  unfold json_name. rewrite endswith_append_long by (cbn; lia). reflexivity.
Qed.

Lemma append_inv_tail (a b s : string) : a ++ s = b ++ s -> a = b.
Proof.
  intros H. pose proof (f_equal String.length H) as L.
  rewrite !length_append in L.
  rewrite <- (substring_append_left a s), <- (substring_append_left b s).
  rewrite H. f_equal. lia.
Qed.

(** Two notes have two JSON siblings. *)
Lemma json_name_injective (x y : string) :
  endswith x ".md" = true -> endswith y ".md" = true ->
  json_name x = json_name y -> x = y.
Proof.
  intros Hx Hy H. unfold json_name in H. apply append_inv_tail in H.
  rewrite (endswith_split x ".md" Hx), (endswith_split y ".md" Hy).
  now rewrite H.
Qed.

(** One turn of the loop touches the note and its JSON sibling, nothing
    else. *)
Lemma convert_file_frame root file es es' r k :
  convert_file env note_to_json root file es = (es', r) ->
  k <> file -> k <> json_name file ->
  lookup k es' = lookup k es.
Proof.
  unfold convert_file. intros H Hk Hj.
  destruct (negb (endswith file ".md")); [now injection H as <- <-|].
  destruct (lookup file es) as [[f|sub]|]; try (now injection H as <- <-).
  destruct (note_to_json (path_join root file) f) as [data|e];
    [|now injection H as <- <-].
  destruct (write_json env _ (json_name file) data es) as [es1 [e|]] eqn:W;
    injection H as <- <-.
  - exact (write_json_other _ _ _ _ _ _ _ k W Hj).
  - rewrite lookup_remove_other by exact Hk.
    exact (write_json_other _ _ _ _ _ _ _ k W Hj).
Qed.

Lemma convert_file_skips root file es :
  endswith file ".md" = false ->
  convert_file env note_to_json root file es = (es, None).
Proof. intros H. unfold convert_file. now rewrite H. Qed.

(** One turn of the loop on a note: it raises and the note is as it was, or
    it returns and the note is converted. *)
Lemma convert_file_turn root file f es es' r :
  endswith file ".md" = true ->
  lookup file es = Some (File f) ->
  convert_file env note_to_json root file es = (es', r) ->
  match r with
  | Some _ => lookup file es' = Some (File f)
  | None => converted env note_to_json root file f es'
  end.
Proof.
  intros He Hl H. unfold convert_file in H. rewrite He, Hl in H. cbn [negb] in H.
  pose proof (json_name_differs file He) as Hne.
  destruct (note_to_json (path_join root file) f) as [data|e] eqn:Hn.
  - destruct (write_json env _ (json_name file) data es) as [es1 [e|]] eqn:Hw;
      injection H as <- <-.
    + rewrite (write_json_other _ _ _ _ _ _ _ file Hw); [exact Hl|].
      intros E. now symmetry in E.
    + split; [apply lookup_remove_same|].
      exists data. split; [exact Hn|].
      rewrite lookup_remove_other by exact Hne.
      exact (write_json_done _ _ _ _ _ _ Hw).
  - injection H as <- <-. exact Hl.
Qed.

(** The turn of another file leaves a note that is there as it is, and a
    note that is converted converted. *)
Lemma convert_file_other_kept root file' es es' r file f :
  convert_file env note_to_json root file' es = (es', r) ->
  file <> file' -> endswith file ".md" = true ->
  lookup file es = Some (File f) -> lookup file es' = Some (File f).
Proof.
  intros H Hne He Hl.
  rewrite (convert_file_frame _ _ _ _ _ file H Hne); [exact Hl|].
  intros E. pose proof (json_name_is_no_note file') as N.
  rewrite <- E in N. congruence.
Qed.

Lemma convert_file_other_converted root file' es es' r file f :
  convert_file env note_to_json root file' es = (es', r) ->
  file <> file' -> endswith file ".md" = true ->
  converted env note_to_json root file f es ->
  converted env note_to_json root file f es'.
Proof.
  intros H Hne He [Hn [data [Hd Hj]]].
  destruct (endswith file' ".md") eqn:He'.
  2:{ rewrite (convert_file_skips _ _ _ He') in H. injection H as <- <-.
      split; [exact Hn|]. now exists data. }
  assert (N1 : file <> json_name file').
  { intros E. pose proof (json_name_is_no_note file') as N.
    rewrite <- E in N. congruence. }
  assert (N2 : json_name file <> file').
  { intros E. pose proof (json_name_is_no_note file) as N.
    rewrite E in N. congruence. }
  assert (N3 : json_name file <> json_name file').
  { intros E. apply Hne. now apply json_name_injective. }
  split.
  - now rewrite (convert_file_frame _ _ _ _ _ file H Hne N1).
  - exists data. split; [exact Hd|].
    now rewrite (convert_file_frame _ _ _ _ _ (json_name file) H N2 N3).
Qed.

Lemma convert_files_other_converted root files : forall es es' r file f,
  convert_files env note_to_json root files es = (es', r) ->
  ~ In file files -> endswith file ".md" = true ->
  converted env note_to_json root file f es ->
  converted env note_to_json root file f es'.
Proof.
  induction files as [|x tl IH]; intros es es' r file f H Hni He Hc.
  - now injection H as <- <-.
  - cbn [convert_files] in H.
    destruct (convert_file env note_to_json root x es) as [es1 [e|]] eqn:E.
    + injection H as <- <-.
      apply (convert_file_other_converted _ _ _ _ _ _ _ E);
        [intros ->; apply Hni; now left | exact He | exact Hc].
    + apply (IH es1 es' r file f H); [intros I; apply Hni; now right | exact He|].
      apply (convert_file_other_converted _ _ _ _ _ _ _ E);
        [intros ->; apply Hni; now left | exact He | exact Hc].
Qed.

Lemma convert_files_kept_or_converted root files : forall es es' r file f,
  NoDup files ->
  convert_files env note_to_json root files es = (es', r) ->
  endswith file ".md" = true ->
  lookup file es = Some (File f) ->
  kept_or_converted env note_to_json root file f es'
  /\ (r = None -> In file files -> converted env note_to_json root file f es').
Proof.
  induction files as [|x tl IH]; intros es es' r file f Hnd H He Hl.
  - injection H as <- <-. split; [now left | intros _ []].
  - inversion Hnd as [|? ? Hx Htl]; subst. cbn [convert_files] in H.
    destruct (convert_file env note_to_json root x es) as [es1 r1] eqn:E.
    destruct (String.eqb file x) eqn:Efx.
    + apply String.eqb_eq in Efx. subst x.
      pose proof (convert_file_turn _ _ _ _ _ _ He Hl E) as T.
      destruct r1 as [e|].
      * injection H as <- <-. split; [now left | discriminate].
      * pose proof (convert_files_other_converted _ _ _ _ _ _ _ H Hx He T) as C.
        split; [now right | now intros _ _].
    + apply String.eqb_neq in Efx.
      pose proof (convert_file_other_kept _ _ _ _ _ _ _ E Efx He Hl) as K.
      destruct r1 as [e|].
      * injection H as <- <-. split; [now left | discriminate].
      * destruct (IH es1 es' r file f Htl H He K) as [A B].
        split; [exact A|]. intros Hr [->|I]; [contradiction | now apply B].
Qed.

End ConvertFrame.

(** X11: the convert loop over the files of a directory loses no note.
    Whether the loop returns or raises, a note that was in the directory is
    afterwards either still there as it was, or gone with its JSON sibling
    holding the record made of it; and when the loop returns, every note it
    was given is converted. *)
Theorem convert_loop_loses_no_note :
  forall env note_to_json root files es es' r file f,
    NoDup files ->
    Flatten.convert_files env note_to_json root files es = (es', r) ->
    Py.endswith file ".md" = true ->
    Fs.lookup file es = Some (File f) ->
    kept_or_converted env note_to_json root file f es'
    /\ (r = None -> In file files -> converted env note_to_json root file f es').
Proof.
  intros env n2j root files es es' r file f.
  apply convert_files_kept_or_converted.
Qed.

Lemma convert_loop_loses_no_note_witness :
  kept_or_converted env0 (Main.note_to_json env0) "vault" "b.md" dated_note
    (fst (Flatten.convert_files env0 (Main.note_to_json env0) "vault"
            ["a.md"; "b.md"] two_notes))
  /\ (Some IndexError = None -> In "b.md" ["a.md"; "b.md"] ->
      converted env0 (Main.note_to_json env0) "vault" "b.md" dated_note
        (fst (Flatten.convert_files env0 (Main.note_to_json env0) "vault"
                ["a.md"; "b.md"] two_notes))).
Proof.
  apply (convert_loop_loses_no_note env0 (Main.note_to_json env0) "vault"
           ["a.md"; "b.md"] two_notes _ (Some IndexError) "b.md" dated_note);
    try reflexivity.
  repeat constructor; cbn; intuition discriminate.
Defined.

(** ** The convert pass on a vault without notes *)

Section ConvertWalk.
Import Py Fs Flatten.
Variable env : os_env.
Variable note_to_json : string -> file -> result NoteRecord.

Lemma convert_walk_dir root es :
  convert_walk env note_to_json root (Dir es) =
  match convert_files env note_to_json root (file_names es) es with
  | (es1, Some e) => (Dir es1, Some e)
  | (es1, None) =>
      let '(es2, r) := walk_subdirs env note_to_json root es es1 in (Dir es2, r)
  end.
Proof. reflexivity. Qed.

Lemma convert_files_no_notes root files es :
  Forall (fun name => endswith name ".md" = false) files ->
  convert_files env note_to_json root files es = (es, None).
Proof.
  induction 1 as [|x tl Hx _ IH]; [reflexivity|].
  cbn [convert_files]. now rewrite (convert_file_skips _ _ _ _ _ Hx).
Qed.

Lemma existsb_eqb_In x l : existsb (String.eqb x) l = false -> ~ In x l.
Proof.
  intros H I. assert (T : existsb (String.eqb x) l = true).
  { apply existsb_exists. exists x. split; [exact I | apply String.eqb_refl]. }
  congruence.
Qed.

(** Putting an entry where it already is changes nothing. *)
Lemma put_same_entry name c es :
  distinct (map fst es) = true -> In (name, c) es -> put name c es = es.
Proof.
  induction es as [|[k m] tl IH]; intros D I; [contradiction|].
  cbn [map fst distinct] in D. apply andb_prop in D as [Dk Dtl].
  apply negb_true_iff in Dk. cbn [put].
  destruct (String.eqb k name) eqn:E.
  - apply String.eqb_eq in E. subst k. destruct I as [I|I].
    + now injection I as ->.
    + exfalso. apply (existsb_eqb_In _ _ Dk).
      change name with (fst (name, c)). now apply in_map.
  - destruct I as [I|I].
    + injection I as -> ->. now rewrite String.eqb_refl in E.
    + now rewrite IH.
Qed.

Lemma walk_subdirs_unchanged root es : forall l pre,
  es = (pre ++ l)%list ->
  distinct (map fst es) = true ->
  Forall (fun e => forall r, convert_walk env note_to_json r (snd e) = (snd e, None)) l ->
  walk_subdirs env note_to_json root l es = (es, None).
Proof.
  induction l as [|[name c] tl IH]; intros pre E D F; [reflexivity|].
  inversion F as [|? ? Hc Ftl]; subst. cbn [snd] in Hc.
  assert (Etl : (pre ++ (name, c) :: tl = (pre ++ [(name, c)]) ++ tl)%list)
    by now rewrite <- app_assoc.
  cbn [walk_subdirs]. destruct c as [f|sub].
  - exact (IH _ Etl D Ftl).
  - rewrite Hc. rewrite put_same_entry; [exact (IH _ Etl D Ftl) | exact D |].
    apply in_or_app. right. now left.
Qed.

End ConvertWalk.

(** X12: on a vault without notes, every name naming one entry in its
    directory, the convert pass changes nothing and raises nothing; so a
    second run over a converted vault is a no-op. *)
Theorem convert_pass_without_notes_is_a_no_op :
  forall env note_to_json t root,
    unique_names t = true ->
    no_notes t = true ->
    Flatten.convert_walk env note_to_json root t = (t, None).
Proof.
  intros env n2j t.
  induction t as [f|es IH] using node_induction; intros root U N; [reflexivity|].
  cbn [unique_names] in U. apply andb_prop in U as [D U].
  cbn [no_notes] in N.
  rewrite forallb_forall in U, N. rewrite Forall_forall in IH.
  rewrite convert_walk_dir.
  rewrite convert_files_no_notes.
  - rewrite (walk_subdirs_unchanged env n2j root es es [] eq_refl D); [reflexivity|].
    apply Forall_forall. intros [name c] I r. cbn [snd].
    specialize (N _ I). cbn [snd fst] in N.
    destruct c as [f|sub]; [reflexivity|].
    apply (IH _ I r); [exact (U _ I) | exact N].
  - apply Forall_forall. intros name I. unfold Fs.file_names in I.
    apply in_map_iff in I as [[k c] [<- I]]. apply filter_In in I as [I Hc].
    specialize (N _ I). cbn [snd fst] in N |- *.
    destruct c; [now apply negb_true_iff in N | discriminate].
Qed.

Lemma convert_pass_without_notes_is_a_no_op_witness :
  Flatten.convert_walk env0 (Lambda.note_to_json env0) "/tmp/vault"
    (Dir [("A", Dir colliding); ("readme.txt", File plain_note)])
  = (Dir [("A", Dir colliding); ("readme.txt", File plain_note)], None).
Proof.
  exact (convert_pass_without_notes_is_a_no_op env0 (Lambda.note_to_json env0)
           (Dir [("A", Dir colliding); ("readme.txt", File plain_note)])
           "/tmp/vault" eq_refl eq_refl).
Defined.

(** ** The archive chosen and the keys uploaded *)

Section Archive.
Import LambdaS3.
Local Open Scope Z_scope.

Lemma max_from_spec l : forall pre best mid,
  (forall o, In o pre -> LastModified o < LastModified best) ->
  (forall o, In o mid -> LastModified o <= LastModified best) ->
  exists pre' o post,
    (pre ++ best :: mid ++ l = pre' ++ o :: post)%list
    /\ (forall o', In o' pre' -> LastModified o' < LastModified o)
    /\ (forall o', In o' post -> LastModified o' <= LastModified o)
    /\ max_from best l = o.
Proof.
  induction l as [|x l IH]; intros pre best mid Hpre Hmid.
  - exists pre, best, mid. rewrite app_nil_r. now repeat split.
  - cbn [max_from]. destruct (LastModified best <? LastModified x) eqn:E.
    + apply Z.ltb_lt in E.
      destruct (IH (pre ++ best :: mid)%list x []) as [pre' [o [post [Eq H]]]].
      * intros o Ho. apply in_app_or in Ho as [Ho|[<-|Ho]];
          [specialize (Hpre _ Ho) | | specialize (Hmid _ Ho)]; lia.
      * intros o [].
      * exists pre', o, post. split; [|exact H].
        rewrite <- Eq. rewrite <- !app_assoc. reflexivity.
    + apply Z.ltb_ge in E.
      destruct (IH pre best (mid ++ [x])%list) as [pre' [o [post [Eq H]]]].
      * exact Hpre.
      * intros o Ho. apply in_app_or in Ho as [Ho|[<-|[]]];
          [now apply Hmid | exact E].
      * exists pre', o, post. split; [|exact H].
        rewrite <- Eq. rewrite <- !app_assoc. reflexivity.
Qed.

End Archive.

(** X13: from a listing that holds objects, [lambda_handler] takes the key
    of the object modified last, whatever its name; of several modified last
    it takes the first listed. *)
Theorem latest_zip_key_is_the_first_of_the_most_recent :
  forall contents,
    contents <> [] ->
    exists pre o post,
      contents = pre ++ o :: post
      /\ (forall o', In o' pre ->
          (LambdaS3.LastModified o' < LambdaS3.LastModified o)%Z)
      /\ (forall o', In o' post ->
          (LambdaS3.LastModified o' <= LambdaS3.LastModified o)%Z)
      /\ LambdaS3.latest_zip_key (Some contents) = inr (LambdaS3.Key o).
Proof.
  intros [|b l] H; [contradiction|].
  destruct (max_from_spec l [] b []) as [pre [o [post [Eq [A [B C]]]]]];
    try (intros ? []).
  exists pre, o, post. cbn [app] in Eq.
  repeat split; try assumption. cbn [LambdaS3.latest_zip_key]. now rewrite C.
Qed.

Lemma latest_zip_key_is_the_first_of_the_most_recent_witness :
  exists pre o post,
    [LambdaS3.mkObject "a.tar.gz" 10; LambdaS3.mkObject "notes.txt" 30;
     LambdaS3.mkObject "b.tar.gz" 30]
    = pre ++ o :: post
    /\ (forall o', In o' pre ->
        (LambdaS3.LastModified o' < LambdaS3.LastModified o)%Z)
    /\ (forall o', In o' post ->
        (LambdaS3.LastModified o' <= LambdaS3.LastModified o)%Z)
    /\ LambdaS3.latest_zip_key
         (Some [LambdaS3.mkObject "a.tar.gz" 10; LambdaS3.mkObject "notes.txt" 30;
                LambdaS3.mkObject "b.tar.gz" 30])
       = inr (LambdaS3.Key o).
Proof.
  apply (latest_zip_key_is_the_first_of_the_most_recent
           [LambdaS3.mkObject "a.tar.gz" 10; LambdaS3.mkObject "notes.txt" 30;
            LambdaS3.mkObject "b.tar.gz" 30]).
  discriminate.
Defined.

Section UploadKey.
Import Py LambdaS3.
Local Open Scope string_scope.

(** Joining what [split] cut gives the string back. *)
Lemma join_split_go c s : forall cur,
  join (String c "") (split_go (String c "") 0 cur s) = cur ++ s.
Proof.
  induction s as [|x s IH]; intros cur; cbn [split_go].
  - cbn. now rewrite append_empty_r.
  - rewrite prefix_char. destruct (Ascii.eqb c x) eqn:E.
    + apply Ascii.eqb_eq in E. subst x. cbn [String.length Nat.sub].
      pose proof (split_go_nonempty (String c "") s 0 "") as N.
      destruct (split_go (String c "") 0 "" s) as [|p ps] eqn:Es; [contradiction|].
      change (join (String c "") (cur :: p :: ps))
        with (cur ++ String c (join (String c "") (p :: ps))).
      rewrite <- Es, IH. reflexivity.
    + rewrite IH, append_assoc. reflexivity.
Qed.

Lemma join_split c s : join (String c "") (split s (String c "")) = s.
Proof. unfold split. now rewrite join_split_go. Qed.

Lemma replace_backslash_app a b :
  replace_backslash (a ++ b) = replace_backslash a ++ replace_backslash b.
Proof. induction a as [|c a IH]; cbn; [reflexivity | now rewrite IH]. Qed.

Lemma replace_backslash_none s :
  contains "\" s = false -> replace_backslash s = s.
Proof.
  induction s as [|c s IH]; intros H; [reflexivity|].
  rewrite contains_char_cons in H. apply orb_false_iff in H as [Hc Hs].
  cbn [replace_backslash]. rewrite Ascii.eqb_sym in Hc. rewrite Hc.
  now rewrite IH.
Qed.

Lemma contains_slash_replace s :
  contains "/" s = false -> contains "\" s = false ->
  contains "/" (replace_backslash s) = false.
Proof. intros H B. now rewrite replace_backslash_none. Qed.

Lemma endswith_slash_free s : contains "/" s = false -> endswith s "/" = false.
Proof.
  intros H. destruct (endswith s "/") eqn:E; [|reflexivity].
  rewrite (endswith_split s "/" E) in H.
  rewrite contains_char_append in H. apply orb_false_iff in H as [_ H].
  discriminate H.
Qed.

End UploadKey.

(** X14: for a bucket name that is not empty and holds neither slash nor
    backslash, the key a file is uploaded under is its path relative to the
    directory uploaded, backslashes turned into slashes: taking the first
    segment off takes off the bucket name that was put in front, and nothing
    of the path. *)
Theorem s3_path_is_the_relative_path :
  forall bucket_name relative_path,
    bucket_name <> "" ->
    Py.contains "/" bucket_name = false ->
    Py.contains "\" bucket_name = false ->
    Py.startswith relative_path "/" = false ->
    LambdaS3.s3_path bucket_name relative_path
    = LambdaS3.replace_backslash relative_path.
Proof.
  intros b rel Hne Hs Hb Hrel. unfold LambdaS3.s3_path, Py.path_join.
  rewrite Hrel.
  destruct (String.eqb b "") eqn:E; [apply String.eqb_eq in E; contradiction|].
  rewrite (endswith_slash_free b Hs). cbn [orb].
  rewrite replace_backslash_app, (replace_backslash_none b Hb).
  change (LambdaS3.replace_backslash ("/" ++ rel))
    with (String "/" (LambdaS3.replace_backslash rel)).
  rewrite (split_first_sep "/" b _ Hs). unfold Py.slice_1. cbn [tl].
  apply join_split.
Qed.

Lemma s3_path_is_the_relative_path_witness :
  LambdaS3.s3_path "dest" "Projects/2023/plan.json"
  = LambdaS3.replace_backslash "Projects/2023/plan.json".
Proof.
  apply (s3_path_is_the_relative_path "dest" "Projects/2023/plan.json");
    try reflexivity.
  discriminate.
Defined.

(** ** The JSON file of a note, and the vault [lambda_handler] uploads *)

Section JsonSibling.
Import Py Flatten.
Local Open Scope string_scope.

Lemma startswith_append_nonempty c a b p :
  startswith (String c a ++ b) (String p "") = startswith (String c a) (String p "").
Proof. unfold startswith. cbn [append]. now rewrite !prefix_char. Qed.

Lemma path_join_relative a b :
  startswith b "/" = false ->
  exists pre, forall b', startswith b' "/" = false -> path_join a b' = pre ++ b'.
Proof.
  intros _. unfold path_join.
  destruct (String.eqb a "" || endswith a "/").
  - exists a. intros b' H. now rewrite H.
  - exists (a ++ "/"). intros b' H. rewrite H. now rewrite append_assoc.
Qed.

End JsonSibling.

(** X15: the path the convert loop writes the record to,
    [note.removesuffix(".md") + ".json"], is the path of the entry of the
    note's own directory named like the note with [.json] for [.md]. *)
Theorem json_file_is_the_sibling_of_the_note :
  forall root file,
    Py.endswith file ".md" = true ->
    Py.startswith file "/" = false ->
    (Py.removesuffix (Py.path_join root file) ".md" ++ ".json")%string
    = Py.path_join root (Flatten.json_name file).
Proof.
  intros root file He Hs.
  destruct (path_join_relative root file Hs) as [pre P].
  assert (Hj : Py.startswith (Flatten.json_name file) "/" = false).
  { unfold Flatten.json_name.
    destruct (Py.removesuffix file ".md") as [|c stem] eqn:E; [reflexivity|].
    rewrite startswith_append_nonempty.
    rewrite (endswith_split file ".md" He), E in Hs.
    now rewrite startswith_append_nonempty in Hs. }
  rewrite (P file Hs), (P _ Hj).
  rewrite (endswith_split file ".md" He) at 1.
  rewrite <- append_assoc.
  rewrite removesuffix_append by discriminate.
  unfold Flatten.json_name. now rewrite append_assoc.
Qed.

Lemma json_file_is_the_sibling_of_the_note_witness :
  (Py.removesuffix (Py.path_join "/tmp/vault/A" "n.md") ".md" ++ ".json")%string
  = Py.path_join "/tmp/vault/A" (Flatten.json_name "n.md").
Proof.
  exact (json_file_is_the_sibling_of_the_note "/tmp/vault/A" "n.md" eq_refl eq_refl).
Defined.

Section Uploaded.
Import Fs Flatten.

Lemma collapse_first_level_returns l : forall l',
  collapse_first_level l = (l', None) -> two_levels l' = true.
Proof.
  induction l as [|[k n] tl IH]; intros l' H.
  - now injection H as <-.
  - destruct n as [f|sub]; cbn [collapse_first_level] in H; [discriminate|].
    destruct (collapse_first_level tl) as [tl' r] eqn:E.
    injection H as <- ->.
    cbn [two_levels forallb snd]. unfold collapse_folder.
    rewrite only_files_remove_dirs. now apply IH.
Qed.

End Uploaded.

(** X16: whenever [lambda_handler] gets through its three passes, the vault
    it goes on to upload is of two levels: every entry of it is a directory
    that holds files only. *)
Theorem lambda_handler_returns_a_vault_of_two_levels :
  forall env vault t,
    Lambda.lambda_handler env vault = (t, None) ->
    exists es, t = Dir es /\ two_levels es = true.
Proof.
  intros env vault t H. unfold Lambda.lambda_handler, Flatten.and_then in H.
  destruct (Flatten.convert_walk env (Lambda.note_to_json env) "/tmp/vault"
              (Flatten.prune_walk vault)) as [t1 [e|]]; [discriminate|].
  destruct t1 as [f|es]; cbn [Flatten.collapse_pass] in H; [discriminate|].
  destruct (Flatten.collapse_first_level es) as [es' r] eqn:E.
  injection H as <- ->. exists es'. split; [reflexivity|].
  exact (collapse_first_level_returns es es' E).
Qed.

Lemma lambda_handler_returns_a_vault_of_two_levels_witness :
  exists es,
    fst (Lambda.lambda_handler env0 nested_vault) = Dir es
    /\ two_levels es = true.
Proof.
  exact (lambda_handler_returns_a_vault_of_two_levels env0 nested_vault
           (fst (Lambda.lambda_handler env0 nested_vault)) eq_refl).
Defined.

(** ** The convert pass over the whole tree *)

Section ConvertTree.
Import Py Fs Flatten.
Variable env : os_env.
Variable note_to_json : string -> file -> result NoteRecord.

Lemma distinct_NoDup l : distinct l = true -> NoDup l.
Proof.
  induction l as [|x l IH]; intros D; [constructor|].
  cbn [distinct] in D. apply andb_prop in D as [Dx Dl].
  apply negb_true_iff in Dx. constructor; [|now apply IH].
  now apply existsb_eqb_In.
Qed.

Lemma lookup_In k n es : lookup k es = Some n -> In (k, n) es.
Proof.
  induction es as [|[k' m] tl IH]; [discriminate|].
  cbn [lookup]. destruct (String.eqb k' k) eqn:E.
  - apply String.eqb_eq in E. subst k'. intros H. injection H as ->. now left.
  - intros H. right. now apply IH.
Qed.

(** In a listing of distinct names a name leads to the entry it names. *)
Lemma In_lookup k n es :
  distinct (map fst es) = true -> In (k, n) es -> lookup k es = Some n.
Proof.
  induction es as [|[k' m] tl IH]; intros D I; [contradiction|].
  cbn [map fst distinct] in D. apply andb_prop in D as [Dk Dtl].
  apply negb_true_iff in Dk. cbn [lookup].
  destruct I as [I|I].
  - injection I as -> ->. now rewrite String.eqb_refl.
  - destruct (String.eqb k' k) eqn:E; [|now apply IH].
    apply String.eqb_eq in E. subst k'. exfalso.
    apply (existsb_eqb_In _ _ Dk). change k with (fst (k, n)). now apply in_map.
Qed.

Lemma file_names_In k f es : lookup k es = Some (File f) -> In k (file_names es).
Proof.
  intros H. unfold file_names. change k with (fst (k, File f)).
  apply in_map. apply filter_In. split; [now apply lookup_In | reflexivity].
Qed.

Lemma NoDup_map_filter (p : string * node -> bool) es :
  NoDup (map fst es) -> NoDup (map fst (filter p es)).
Proof.
  induction es as [|e tl IH]; intros N; [constructor|].
  inversion N as [|? ? Hx Htl]; subst. cbn [filter].
  destruct (p e); [|now apply IH].
  cbn [map]. constructor; [|now apply IH].
  intros I. apply Hx. apply in_map_iff in I as [e' [E I]].
  apply filter_In in I as [I _]. rewrite <- E. now apply in_map.
Qed.

Lemma file_names_NoDup es : distinct (map fst es) = true -> NoDup (file_names es).
Proof. intros D. apply NoDup_map_filter. now apply distinct_NoDup. Qed.

(** A turn of the convert loop leaves the directories of the listing as
    they are. *)
Lemma convert_file_keeps_dirs root file es es' r k s :
  convert_file env note_to_json root file es = (es', r) ->
  lookup k es = Some (Dir s) -> lookup k es' = Some (Dir s).
Proof.
  intros H Hk. pose proof H as H0. unfold convert_file in H.
  destruct (negb (endswith file ".md")); [now injection H as <- <-|].
  destruct (lookup file es) as [[f|sub]|] eqn:Ef; try (now injection H as <- <-).
  destruct (note_to_json (path_join root file) f) as [data|e];
    [|now injection H as <- <-].
  unfold write_json in H.
  destruct (lookup (json_name file) es) as [[g|sub]|] eqn:Ej;
    try (now injection H as <- <-).
  - rewrite (convert_file_frame _ _ _ _ _ _ _ k H0); [exact Hk | |];
      intros ->; congruence.
  - rewrite (convert_file_frame _ _ _ _ _ _ _ k H0); [exact Hk | |];
      intros ->; congruence.
Qed.

Lemma convert_files_keep_dirs root files : forall es es' r k s,
  convert_files env note_to_json root files es = (es', r) ->
  lookup k es = Some (Dir s) -> lookup k es' = Some (Dir s).
Proof.
  induction files as [|x tl IH]; intros es es' r k s H Hk.
  - now injection H as <- <-.
  - cbn [convert_files] in H.
    destruct (convert_file env note_to_json root x es) as [es1 [e|]] eqn:E.
    + injection H as <- <-. exact (convert_file_keeps_dirs _ _ _ _ _ _ _ E Hk).
    + apply (IH _ _ _ _ _ H). exact (convert_file_keeps_dirs _ _ _ _ _ _ _ E Hk).
Qed.

(** The walk into the sub-directories touches the entries of the
    directories it walks, and no other. *)
Lemma walk_subdirs_frame root k l : forall acc acc' r,
  walk_subdirs env note_to_json root l acc = (acc', r) ->
  (forall c, In (k, c) l -> is_dir c = false) ->
  lookup k acc' = lookup k acc.
Proof.
  induction l as [|[name c] tl IH]; intros acc acc' r H Hk.
  - now injection H as <- <-.
  - cbn [walk_subdirs] in H.
    assert (Htl : forall c0, In (k, c0) tl -> is_dir c0 = false)
      by (intros c0 I; apply Hk; now right).
    destruct c as [f|sub]; [exact (IH _ _ _ H Htl)|].
    assert (Hne : k <> name).
    { intros ->. specialize (Hk (Dir sub) (or_introl eq_refl)). discriminate. }
    destruct (convert_walk env note_to_json (path_join root name) (Dir sub))
      as [c' [e|]].
    + injection H as <- <-. now apply lookup_put_other.
    + rewrite (IH _ _ _ H Htl). now apply lookup_put_other.
Qed.

(** When the walk into the sub-directories returns, the walk of each of them
    has returned, and its result is what the name of the sub-directory leads
    to. *)
Lemma walk_subdirs_dir root d c l : forall acc acc',
  NoDup (map fst l) ->
  walk_subdirs env note_to_json root l acc = (acc', None) ->
  In (d, c) l -> is_dir c = true ->
  exists c',
    convert_walk env note_to_json (path_join root d) c = (c', None)
    /\ lookup d acc' = Some c'.
Proof.
  induction l as [|[name c0] tl IH]; intros acc acc' N H I Hc; [contradiction|].
  inversion N as [|? ? Hx Htl]; subst. cbn [walk_subdirs] in H.
  destruct c0 as [f|sub].
  - destruct I as [I|I]; [injection I as -> <-; discriminate|].
    exact (IH _ _ Htl H I Hc).
  - destruct (convert_walk env note_to_json (path_join root name) (Dir sub))
      as [c' [e|]] eqn:E; [discriminate|].
    destruct I as [I|I].
    + injection I as -> <-. exists c'. split; [exact E|].
      rewrite (walk_subdirs_frame _ _ _ _ _ _ H).
      * apply lookup_put_same.
      * intros c0 I0. exfalso. apply Hx. change d with (fst (d, c0)).
        now apply in_map.
    + exact (IH _ _ Htl H I Hc).
Qed.

Lemma convert_walk_returns_dir root es t' r :
  convert_walk env note_to_json root (Dir es) = (t', r) -> exists es', t' = Dir es'.
Proof.
  rewrite convert_walk_dir.
  destruct (convert_files env note_to_json root (file_names es) es) as [es1 [e|]].
  - intros H. injection H as <- _. now exists es1.
  - destruct (walk_subdirs env note_to_json root es es1) as [es2 r2].
    intros H. injection H as <- _. now exists es2.
Qed.

Lemma unique_names_child d c es :
  unique_names (Dir es) = true -> In (d, c) es -> unique_names c = true.
Proof.
  cbn [unique_names]. intros U I. apply andb_prop in U as [_ U].
  rewrite forallb_forall in U. exact (U _ I).
Qed.

Lemma json_path_cons d b q : json_path (d :: b :: q) = d :: json_path (b :: q).
Proof. reflexivity. Qed.

Lemma lookup_path_cons d x q es :
  lookup_path (d :: x :: q) es =
  match lookup d es with
  | Some (Dir sub) => lookup_path (x :: q) sub
  | _ => None
  end.
Proof. reflexivity. Qed.

(** When the convert pass returns, every note of the tree is converted where
    it was: the note is gone, and next to where it was lies the JSON file of
    the record made from its path and content. *)
Lemma convert_walk_converts_every_note p : forall t root t' f,
  unique_names t = true ->
  lookup_path p (entries_of t) = Some (File f) ->
  endswith (last p "") ".md" = true ->
  convert_walk env note_to_json root t = (t', None) ->
  lookup_path p (entries_of t') = None
  /\ exists data,
       note_to_json (path_string root p) f = Ok data
       /\ lookup_path (json_path p) (entries_of t')
          = Some (File (mkFile (new_stat env) (JsonDoc data))).
Proof.
  induction p as [|a p IH]; intros t root t' f U Hl He H; [discriminate|].
  destruct t as [g|es]; [destruct p; discriminate|].
  cbn [entries_of] in Hl. rewrite convert_walk_dir in H.
  destruct (convert_files env note_to_json root (file_names es) es)
    as [es1 [e|]] eqn:Ef; [discriminate|].
  destruct (walk_subdirs env note_to_json root es es1) as [es2 r2] eqn:Ew.
  injection H as <- ->. cbn [entries_of].
  pose proof U as U0. cbn [unique_names] in U. apply andb_prop in U as [D _].
  destruct p as [|b q].
  - (* a note of the directory itself *)
    cbn [lookup_path last] in *.
    destruct (convert_files_kept_or_converted env note_to_json root
                (file_names es) es es1 None a f (file_names_NoDup es D) Ef He Hl)
      as [_ C].
    destruct (C eq_refl (file_names_In _ _ _ Hl)) as [Hn [data [Hd Hj]]].
    assert (F1 : lookup a es2 = lookup a es1).
    { apply (walk_subdirs_frame _ _ _ _ _ _ Ew). intros c I.
      rewrite (In_lookup _ _ _ D I) in Hl. now injection Hl as ->. }
    assert (F2 : lookup (json_name a) es2 = lookup (json_name a) es1).
    { apply (walk_subdirs_frame _ _ _ _ _ _ Ew). intros c I.
      destruct c as [g|s]; [reflexivity|].
      pose proof (convert_files_keep_dirs _ _ _ _ _ _ _ Ef (In_lookup _ _ _ D I)).
      congruence. }
    split; [now rewrite F1|].
    exists data. split; [exact Hd|].
    unfold json_path. cbn [removelast last app lookup_path]. now rewrite F2.
  - (* a note further down *)
    rewrite lookup_path_cons in Hl.
    destruct (lookup a es) as [[g|sub]|] eqn:Ea; try discriminate.
    pose proof (lookup_In _ _ _ Ea) as I.
    destruct (walk_subdirs_dir root a (Dir sub) es es1 es2
                (distinct_NoDup _ D) Ew I eq_refl) as [c' [Ec Hc]].
    destruct (convert_walk_returns_dir _ _ _ _ Ec) as [sub' ->].
    assert (Hlast : last (a :: b :: q) "" = last (b :: q) "") by reflexivity.
    rewrite Hlast in He.
    destruct (IH (Dir sub) (path_join root a) (Dir sub') f
                (unique_names_child _ _ _ U0 I) Hl He Ec) as [Hn [data [Hd Hj]]].
    cbn [entries_of] in Hn, Hj.
    split.
    + rewrite lookup_path_cons, Hc. exact Hn.
    + exists data. split; [exact Hd|].
      rewrite json_path_cons.
      destruct (json_path (b :: q)) as [|x y] eqn:Ej.
      * unfold json_path in Ej. now destruct (removelast (b :: q)).
      * rewrite lookup_path_cons, Hc. exact Hj.
Qed.

End ConvertTree.

Section ConvertRaises.
Import Py Fs Flatten.
Variable env : os_env.
Variable note_to_json : string -> file -> result NoteRecord.

Lemma walk_subdirs_app root pre l : forall acc,
  walk_subdirs env note_to_json root (pre ++ l) acc =
  match walk_subdirs env note_to_json root pre acc with
  | (acc1, None) => walk_subdirs env note_to_json root l acc1
  | (acc1, Some e) => (acc1, Some e)
  end.
Proof.
  induction pre as [|[name c] pre IH]; intros acc; [reflexivity|].
  cbn [app walk_subdirs]. destruct c as [f|sub]; [apply IH|].
  destruct (convert_walk env note_to_json (path_join root name) (Dir sub))
    as [c' [e|]]; [reflexivity | apply IH].
Qed.

(** A note of the directory that cannot be converted ends the walk of the
    directory. *)
Lemma convert_walk_raises_in_directory root es pre file post es1 f e :
  file_names es = pre ++ file :: post ->
  convert_files env note_to_json root pre es = (es1, None) ->
  endswith file ".md" = true ->
  lookup file es1 = Some (File f) ->
  note_to_json (path_join root file) f = Raise e ->
  convert_walk env note_to_json root (Dir es) = (Dir es1, Some e).
Proof.
  intros Hn Hpre He Hl Hr.
  rewrite convert_walk_dir, Hn, convert_files_app, Hpre.
  cbn [convert_files].
  now rewrite (convert_file_raises env note_to_json root file f es1 e He Hl Hr).
Qed.

(** The exception of the walk of a sub-directory is the exception of the
    walk of the directory. *)
Lemma convert_walk_raises_in_subdirectory root es es1 pre d c post es2 c' e :
  convert_files env note_to_json root (file_names es) es = (es1, None) ->
  es = pre ++ (d, c) :: post ->
  is_dir c = true ->
  walk_subdirs env note_to_json root pre es1 = (es2, None) ->
  convert_walk env note_to_json (path_join root d) c = (c', Some e) ->
  convert_walk env note_to_json root (Dir es) = (Dir (put d c' es2), Some e).
Proof.
  intros Hf Hes Hc Hpre Hw.
  rewrite convert_walk_dir, Hf. rewrite Hes at 1.
  rewrite walk_subdirs_app, Hpre. cbn [walk_subdirs].
  destruct c as [g|sub]; [discriminate|]. now rewrite Hw.
Qed.

(** A note that cannot be converted, wherever it lies, makes the pass
    raise. *)
Lemma convert_walk_raises_on_a_failing_note t root p f e :
  unique_names t = true ->
  lookup_path p (entries_of t) = Some (File f) ->
  endswith (last p "") ".md" = true ->
  note_to_json (path_string root p) f = Raise e ->
  exists t' e', convert_walk env note_to_json root t = (t', Some e').
Proof.
  intros U Hl He Hr.
  destruct (convert_walk env note_to_json root t) as [t' [e'|]] eqn:E.
  - now exists t', e'.
  - destruct (convert_walk_converts_every_note env note_to_json p t root t' f
                U Hl He E) as [_ [data [Hd _]]].
    congruence.
Qed.

End ConvertRaises.

(** C4, amended: an error while the record of a note is made is not caught.
    No JSON file is written for the failing note, and the note stays in
    place; the exception leaves the loop over the directory, the walk of
    every directory above it and the entry point itself, [lambda_handler]
    not going on to the collapse pass.  So a note that cannot be converted,
    wherever it lies in the vault, makes the whole run raise, and the notes
    listed after it and the sub-directories not yet walked stay
    unconverted. *)
Theorem C4_error_in_a_note_ends_the_convert_pass :
  forall env,
    (* a failing note of the directory walked *)
    (forall note_to_json root es pre file post es1 f e,
       Fs.file_names es = pre ++ file :: post ->
       Flatten.convert_files env note_to_json root pre es = (es1, None) ->
       Py.endswith file ".md" = true ->
       Fs.lookup file es1 = Some (File f) ->
       note_to_json (Py.path_join root file) f = Raise e ->
       Flatten.convert_walk env note_to_json root (Dir es) = (Dir es1, Some e))
    (* the exception of a sub-directory: the later ones are not walked *)
    /\ (forall note_to_json root es es1 pre d c post es2 c' e,
          Flatten.convert_files env note_to_json root (Fs.file_names es) es
          = (es1, None) ->
          es = pre ++ (d, c) :: post ->
          Fs.is_dir c = true ->
          walk_subdirs env note_to_json root pre es1 = (es2, None) ->
          Flatten.convert_walk env note_to_json (Py.path_join root d) c
          = (c', Some e) ->
          Flatten.convert_walk env note_to_json root (Dir es)
          = (Dir (Fs.put d c' es2), Some e))
    (* a failing note anywhere in the pruned vault: [main] raises *)
    /\ (forall vault p f e,
          unique_names (Flatten.prune_walk vault) = true ->
          Fs.lookup_path p (entries_of (Flatten.prune_walk vault)) = Some (File f) ->
          Py.endswith (last p "") ".md" = true ->
          Main.note_to_json env (path_string "vault" p) f = Raise e ->
          exists t' e', Main.main env vault = (t', Some e'))
    (* and [lambda_handler] raises, leaving the vault uncollapsed *)
    /\ (forall vault p f e,
          unique_names (Flatten.prune_walk vault) = true ->
          Fs.lookup_path p (entries_of (Flatten.prune_walk vault)) = Some (File f) ->
          Py.endswith (last p "") ".md" = true ->
          Lambda.note_to_json env (path_string "/tmp/vault" p) f = Raise e ->
          exists t' e',
            Flatten.convert_walk env (Lambda.note_to_json env) "/tmp/vault"
              (Flatten.prune_walk vault) = (t', Some e')
            /\ Lambda.lambda_handler env vault = (t', Some e')).
Proof.
  intros env. split; [|split; [|split]].
  - intros n2j. apply convert_walk_raises_in_directory.
  - intros n2j. apply convert_walk_raises_in_subdirectory.
  - intros vault p f e U Hl He Hr. unfold Main.main.
    exact (convert_walk_raises_on_a_failing_note env _ _ _ p f e U Hl He Hr).
  - intros vault p f e U Hl He Hr.
    destruct (convert_walk_raises_on_a_failing_note env _ _ _ p f e U Hl He Hr)
      as [t' [e' E]].
    exists t', e'. split; [exact E|].
    unfold Lambda.lambda_handler. now rewrite E.
Qed.

Lemma C4_witness :
  exists t' e', Main.main env0 failing_vault = (t', Some e').
Proof.
  exact (proj1 (proj2 (proj2 (C4_error_in_a_note_ends_the_convert_pass env0)))
           failing_vault ["A"; "sub"; "a.md"] bare_date_note IndexError
           eq_refl eq_refl eq_refl eq_refl).
Defined.

(** ** Two convert passes over the same tree *)

Section Alike.
Import Py Fs Flatten.

Lemma alike_is_dir name n1 n2 : alike name n1 n2 -> is_dir n1 = is_dir n2.
Proof. intros H. now inversion H. Qed.

Lemma alike_entries_refl es : alike_entries es es.
Proof.
  induction es as [|e tl IH]; constructor; [|exact IH].
  split; [reflexivity | apply alike_same].
Qed.

Lemma lookup_alike k es1 es2 :
  alike_entries es1 es2 ->
  (lookup k es1 = None /\ lookup k es2 = None)
  \/ exists n1 n2, lookup k es1 = Some n1 /\ lookup k es2 = Some n2 /\ alike k n1 n2.
Proof.
  induction 1 as [|[k1 n1] [k2 n2] tl1 tl2 [Hk Hn] _ IH]; [now left|].
  cbn [fst snd] in Hk, Hn. subst k2. cbn [lookup].
  destruct (String.eqb k1 k) eqn:E; [|exact IH].
  apply String.eqb_eq in E. subst k1. right. now exists n1, n2.
Qed.

Lemma put_alike k n1 n2 es1 es2 :
  alike_entries es1 es2 -> alike k n1 n2 ->
  alike_entries (put k n1 es1) (put k n2 es2).
Proof.
  intros H Hn.
  induction H as [|[k1 m1] [k2 m2] tl1 tl2 [Hk Hm] Htl IH]; cbn [put].
  - constructor; [now split | constructor].
  - cbn [fst snd] in Hk, Hm. subst k2.
    destruct (String.eqb k1 k); constructor; try assumption; now split.
Qed.

Lemma remove_alike k es1 es2 :
  alike_entries es1 es2 -> alike_entries (remove k es1) (remove k es2).
Proof.
  induction 1 as [|[k1 m1] [k2 m2] tl1 tl2 [Hk Hm] Htl IH]; cbn [remove];
    [constructor|].
  cbn [fst snd] in Hk, Hm. subst k2.
  destruct (String.eqb k1 k); [exact IH|]. constructor; [now split | exact IH].
Qed.

Lemma file_names_alike es1 es2 :
  alike_entries es1 es2 -> file_names es1 = file_names es2.
Proof.
  unfold file_names.
  induction 1 as [|[k1 m1] [k2 m2] tl1 tl2 [Hk Hm] Htl IH]; [reflexivity|].
  cbn [fst snd] in Hk, Hm. subst k2. cbn [filter snd].
  rewrite (alike_is_dir _ _ _ Hm).
  destruct (negb (is_dir m2)); [cbn [map fst]; now rewrite IH | exact IH].
Qed.

(** Under the name of a note the two trees hold the same file. *)
Lemma alike_note name n1 n2 :
  endswith name ".md" = true -> alike name n1 n2 ->
  n1 = n2 \/ (is_dir n1 = true /\ is_dir n2 = true).
Proof.
  intros He H. inversion H; subst; [now left | congruence | now right].
Qed.

Section Passes.
Variable env : os_env.
Variables note_to_json_a note_to_json_b : string -> file -> result NoteRecord.
Variable related : string -> string -> Prop.
Hypothesis related_join :
  forall a b name, related a b -> related (path_join a name) (path_join b name).
Hypothesis records_agree :
  forall a b name f ra rb,
    related a b ->
    note_to_json_a (path_join a name) f = Ok ra ->
    note_to_json_b (path_join b name) f = Ok rb ->
    same_but_for_path_and_folder ra rb.

Lemma write_json_alike jfa jfb name da db es1 es2 es1' es2' :
  alike_entries es1 es2 ->
  endswith name ".md" = false ->
  same_but_for_path_and_folder da db ->
  write_json env jfa name da es1 = (es1', None) ->
  write_json env jfb name db es2 = (es2', None) ->
  alike_entries es1' es2'.
Proof.
  intros H He Hd Ha Hb. unfold write_json in Ha, Hb.
  assert (Ea : es1' = put name (File (mkFile (new_stat env) (JsonDoc da))) es1).
  { destruct (lookup name es1) as [[g|s]|]; try discriminate;
      destruct (write_fault env jfa); try discriminate; now injection Ha as <-. }
  assert (Eb : es2' = put name (File (mkFile (new_stat env) (JsonDoc db))) es2).
  { destruct (lookup name es2) as [[g|s]|]; try discriminate;
      destruct (write_fault env jfb); try discriminate; now injection Hb as <-. }
  subst es1' es2'. apply put_alike; [exact H|]. now apply alike_json.
Qed.

Lemma convert_file_alike ra rb name es1 es2 es1' es2' :
  alike_entries es1 es2 -> related ra rb ->
  convert_file env note_to_json_a ra name es1 = (es1', None) ->
  convert_file env note_to_json_b rb name es2 = (es2', None) ->
  alike_entries es1' es2'.
Proof.
  intros H R Ha Hb. unfold convert_file in Ha, Hb.
  destruct (endswith name ".md") eqn:He; cbn [negb] in Ha, Hb.
  2:{ injection Ha as <-. injection Hb as <-. exact H. }
  destruct (lookup_alike name _ _ H) as [[E1 E2] | [n1 [n2 [E1 [E2 A]]]]];
    rewrite E1 in Ha; rewrite E2 in Hb; [discriminate|].
  destruct (alike_note _ _ _ He A) as [<- | [D1 D2]].
  2:{ destruct n1; discriminate. }
  destruct n1 as [f|s]; [|discriminate].
  destruct (note_to_json_a (path_join ra name) f) as [da|] eqn:Na; [|discriminate].
  destruct (note_to_json_b (path_join rb name) f) as [db|] eqn:Nb; [|discriminate].
  pose proof (records_agree _ _ _ _ _ _ R Na Nb) as S.
  destruct (write_json env _ (json_name name) da es1) as [w1 [e|]] eqn:W1;
    [discriminate|].
  destruct (write_json env _ (json_name name) db es2) as [w2 [e|]] eqn:W2;
    [discriminate|].
  injection Ha as <-. injection Hb as <-. apply remove_alike.
  exact (write_json_alike _ _ _ _ _ _ _ _ _ H (json_name_is_no_note name) S W1 W2).
Qed.

Lemma convert_files_alike ra rb files : forall es1 es2 es1' es2',
  alike_entries es1 es2 -> related ra rb ->
  convert_files env note_to_json_a ra files es1 = (es1', None) ->
  convert_files env note_to_json_b rb files es2 = (es2', None) ->
  alike_entries es1' es2'.
Proof.
  induction files as [|x tl IH]; intros es1 es2 es1' es2' H R Ha Hb.
  - injection Ha as <-. injection Hb as <-. exact H.
  - cbn [convert_files] in Ha, Hb.
    destruct (convert_file env note_to_json_a ra x es1) as [m1 [e|]] eqn:C1;
      [discriminate|].
    destruct (convert_file env note_to_json_b rb x es2) as [m2 [e|]] eqn:C2;
      [discriminate|].
    exact (IH _ _ _ _ (convert_file_alike _ _ _ _ _ _ _ H R C1 C2) R Ha Hb).
Qed.

Lemma walk_subdirs_alike ra rb l : forall acc1 acc2 acc1' acc2',
  Forall (fun e => forall a b t1 t2,
            related a b ->
            convert_walk env note_to_json_a a (snd e) = (t1, None) ->
            convert_walk env note_to_json_b b (snd e) = (t2, None) ->
            alike (fst e) t1 t2) l ->
  alike_entries acc1 acc2 -> related ra rb ->
  walk_subdirs env note_to_json_a ra l acc1 = (acc1', None) ->
  walk_subdirs env note_to_json_b rb l acc2 = (acc2', None) ->
  alike_entries acc1' acc2'.
Proof.
  induction l as [|[name c] tl IH]; intros acc1 acc2 acc1' acc2' F H R Ha Hb.
  - injection Ha as <-. injection Hb as <-. exact H.
  - inversion F as [|? ? Hc Ftl]; subst. cbn [fst snd] in Hc.
    cbn [walk_subdirs] in Ha, Hb.
    destruct c as [f|sub]; [exact (IH _ _ _ _ Ftl H R Ha Hb)|].
    destruct (convert_walk env note_to_json_a (path_join ra name) (Dir sub))
      as [c1 [e|]] eqn:W1; [discriminate|].
    destruct (convert_walk env note_to_json_b (path_join rb name) (Dir sub))
      as [c2 [e|]] eqn:W2; [discriminate|].
    apply (IH _ _ _ _ Ftl (put_alike name c1 c2 _ _ H
                             (Hc _ _ _ _ (related_join _ _ name R) W1 W2))
              R Ha Hb).
Qed.

(** Two convert passes over the same tree that both return leave trees that
    are alike. *)
Lemma convert_walk_alike t : forall name ra rb t1 t2,
  related ra rb ->
  convert_walk env note_to_json_a ra t = (t1, None) ->
  convert_walk env note_to_json_b rb t = (t2, None) ->
  alike name t1 t2.
Proof.
  induction t as [f|es IH] using node_induction; intros name ra rb t1 t2 R Ha Hb.
  - injection Ha as <-. injection Hb as <-. apply alike_same.
  - rewrite convert_walk_dir in Ha, Hb.
    destruct (convert_files env note_to_json_a ra (file_names es) es)
      as [m1 [e|]] eqn:F1; [discriminate|].
    destruct (convert_files env note_to_json_b rb (file_names es) es)
      as [m2 [e|]] eqn:F2; [discriminate|].
    pose proof (convert_files_alike _ _ _ _ _ _ _ (alike_entries_refl es) R F1 F2)
      as M.
    destruct (walk_subdirs env note_to_json_a ra es m1) as [w1 r1] eqn:W1.
    destruct (walk_subdirs env note_to_json_b rb es m2) as [w2 r2] eqn:W2.
    injection Ha as <- ->. injection Hb as <- ->.
    apply alike_dir.
    apply (walk_subdirs_alike ra rb es m1 m2 w1 w2); try assumption.
    apply Forall_forall. intros [k c] I a b u1 u2 Rab U1 U2. cbn [fst snd] in *.
    rewrite Forall_forall in IH. exact (IH _ I k a b u1 u2 Rab U1 U2).
Qed.

End Passes.
End Alike.

(** ** The two entry points on the same vault *)

Section SameVault.
Import Py.
Local Open Scope string_scope.

Lemma endswith_after_slash pre c rel :
  endswith (pre ++ String c rel) "/" = endswith (String c rel) "/".
Proof. apply endswith_append_long. cbn. lia. Qed.

Lemma vault_paths_join a b name :
  vault_paths a b -> vault_paths (path_join a name) (path_join b name).
Proof.
  intros [-> | [[-> ->] | [rel [-> ->]]]].
  - now left.
  - unfold path_join. destruct (startswith name "/"); [now left|].
    right. right. now exists name.
  - unfold path_join. destruct (startswith name "/"); [now left|].
    right. right.
    assert (E : endswith ("vault/" ++ rel) "/" = endswith ("/tmp/vault/" ++ rel) "/").
    { destruct rel as [|c rel]; [reflexivity|].
      now rewrite (endswith_after_slash "vault/"),
                  (endswith_after_slash "/tmp/vault/"). }
    rewrite <- E.
    change (String.eqb ("vault/" ++ rel) "") with false.
    change (String.eqb ("/tmp/vault/" ++ rel) "") with false.
    cbn [orb].
    destruct (endswith ("vault/" ++ rel) "/").
    + exists (rel ++ name). now rewrite !append_assoc.
    + exists (rel ++ "/" ++ name). now rewrite !append_assoc.
Qed.

(** For the two path strings of a place the name tests of the periodic rules
    and the base name are the same. *)
Lemma vault_paths_same_name a b :
  vault_paths a b ->
  basename b = basename a /\ Lambda.periodic_date b = Main.periodic_date a.
Proof.
  intros [-> | [[-> ->] | [rel [-> ->]]]].
  - now split.
  - now split.
  - split; [apply basename_vault | apply periodic_date_vault].
Qed.

Lemma created_date_same_name env pm pl f dm dl :
  Lambda.periodic_date pl = Main.periodic_date pm ->
  Main.get_note_creation_date env pm f = Ok dm ->
  Lambda.get_note_creation_date env pl f = Ok dl ->
  dm = dl.
Proof.
  intros P. unfold Lambda.get_note_creation_date, Main.get_note_creation_date.
  destruct (Fs.read_text env f) as [c|]; cbn [bind]; [|discriminate].
  change Main.metadata_date with Lambda.metadata_date.
  destruct (if startswith c "---" then Lambda.metadata_date (split c (String "010" ""))
            else Ok None) as [[d|]|]; cbn [bind]; try discriminate.
  - congruence.
  - rewrite P.
    destruct (Main.periodic_date pm) as [[d|]|]; cbn [bind];
      try discriminate; [congruence|].
    intros Hm Hl. pose proof (oldest_stat_date_never_both env (f_stat f)) as N.
    rewrite Hl, Hm in N. discriminate N.
Qed.

Lemma records_agree_same_name env pm pl f rm rl :
  basename pl = basename pm ->
  Lambda.periodic_date pl = Main.periodic_date pm ->
  Main.note_to_json env pm f = Ok rm ->
  Lambda.note_to_json env pl f = Ok rl ->
  same_but_for_path_and_folder rm rl.
Proof.
  intros B P Hm Hl.
  unfold Lambda.note_to_json in Hl. unfold Main.note_to_json in Hm.
  rewrite B in Hl.
  destruct (Fs.read_text env f) as [c|]; cbn [bind] in Hl, Hm; [|discriminate].
  destruct (Lambda.get_note_creation_date env pl f) as [dl|] eqn:El;
    cbn [bind] in Hl; [|discriminate].
  destruct (Main.get_note_creation_date env pm f) as [dm|] eqn:Em;
    cbn [bind] in Hm; [|discriminate].
  cbv zeta in Hl, Hm.
  pose proof (created_date_same_name env pm pl f dm dl P Em El) as ->.
  injection Hl as <-. injection Hm as <-.
  unfold same_but_for_path_and_folder. now repeat split.
Qed.

Lemma records_agree_below_the_vaults env a b name f rm rl :
  vault_paths a b ->
  Main.note_to_json env (path_join a name) f = Ok rm ->
  Lambda.note_to_json env (path_join b name) f = Ok rl ->
  same_but_for_path_and_folder rm rl.
Proof.
  intros V. destruct (vault_paths_same_name _ _ (vault_paths_join _ _ name V))
    as [B P].
  now apply records_agree_same_name.
Qed.

(** Date inference, tier by tier. *)
Lemma lambda_date_by_tiers env note_file f content :
  Fs.read_text env f = Ok content ->
  Lambda.get_note_creation_date env note_file f =
  bind (text_date content note_file)
       (fun td => match td with
                  | Some d => Ok d
                  | None => Lambda.oldest_stat_date env (f_stat f)
                  end).
Proof.
  intros Hr. unfold Lambda.get_note_creation_date, text_date. rewrite Hr.
  cbn [bind]. fold nl.
  destruct (if startswith content "---"
            then Lambda.metadata_date (split content nl) else Ok None)
    as [[d|]|]; cbn [bind]; reflexivity.
Qed.

Lemma main_date_by_tiers env note_file f content :
  Fs.read_text env f = Ok content ->
  Main.get_note_creation_date env note_file f =
  bind (text_date content note_file)
       (fun td => match td with
                  | Some d => Ok d
                  | None => Main.oldest_stat_date env (f_stat f)
                  end).
Proof.
  intros Hr. unfold Main.get_note_creation_date, text_date. rewrite Hr.
  cbn [bind]. fold nl.
  change Main.metadata_date with Lambda.metadata_date.
  change (Main.periodic_date note_file) with (Lambda.periodic_date note_file).
  destruct (if startswith content "---"
            then Lambda.metadata_date (split content nl) else Ok None)
    as [[d|]|]; cbn [bind]; reflexivity.
Qed.

Lemma text_date_vault content rel :
  text_date content ("/tmp/vault/" ++ rel) = text_date content ("vault/" ++ rel).
Proof.
  unfold text_date.
  change (Lambda.periodic_date ("vault/" ++ rel))
    with (Main.periodic_date ("vault/" ++ rel)).
  now rewrite periodic_date_vault.
Qed.

Lemma lambda_record_of_date env note_file f content :
  Fs.read_text env f = Ok content ->
  (forall e, Lambda.get_note_creation_date env note_file f = Raise e ->
             Lambda.note_to_json env note_file f = Raise e)
  /\ (forall d, Lambda.get_note_creation_date env note_file f = Ok d ->
                exists r, Lambda.note_to_json env note_file f = Ok r).
Proof.
  intros Hr. unfold Lambda.note_to_json. rewrite Hr. cbn [bind].
  split; intros x ->; cbn [bind]; [reflexivity | eexists; reflexivity].
Qed.

Lemma main_record_of_date env note_file f content :
  Fs.read_text env f = Ok content ->
  (forall e, Main.get_note_creation_date env note_file f = Raise e ->
             Main.note_to_json env note_file f = Raise e)
  /\ (forall d, Main.get_note_creation_date env note_file f = Ok d ->
                exists r, Main.note_to_json env note_file f = Ok r).
Proof.
  intros Hr. unfold Main.note_to_json. rewrite Hr. cbn [bind].
  split; intros x ->; cbn [bind]; [reflexivity | eexists; reflexivity].
Qed.

(** A note the first two tiers date: the two files raise the same exception
    or return records that agree. *)
Lemma text_dated_note env rel f content :
  Fs.read_text env f = Ok content ->
  text_date content ("vault/" ++ rel) <> Ok None ->
  (exists e,
     Main.note_to_json env ("vault/" ++ rel) f = Raise e
     /\ Lambda.note_to_json env ("/tmp/vault/" ++ rel) f = Raise e)
  \/ (exists rm rl,
        Main.note_to_json env ("vault/" ++ rel) f = Ok rm
        /\ Lambda.note_to_json env ("/tmp/vault/" ++ rel) f = Ok rl
        /\ same_but_for_path_and_folder rm rl).
Proof.
  intros Hr Ht.
  pose proof (main_date_by_tiers env ("vault/" ++ rel) f content Hr) as Dm.
  pose proof (lambda_date_by_tiers env ("/tmp/vault/" ++ rel) f content Hr) as Dl.
  rewrite text_date_vault in Dl.
  destruct (main_record_of_date env ("vault/" ++ rel) f content Hr) as [Mr Mo].
  destruct (lambda_record_of_date env ("/tmp/vault/" ++ rel) f content Hr) as [Lr Lo].
  destruct (text_date content ("vault/" ++ rel)) as [[d|]|e]; cbn [bind] in Dm, Dl.
  - right. destruct (Mo _ Dm) as [rm Hm]. destruct (Lo _ Dl) as [rl Hl].
    exists rm, rl. split; [exact Hm|]. split; [exact Hl|].
    apply (records_agree_same_name env _ _ f rm rl
             (basename_vault rel) (periodic_date_vault rel) Hm Hl).
  - contradiction.
  - left. exists e. split; [now apply Mr | now apply Lr].
Qed.

(** A note left to the times of its file: the two files do not both return
    a record. *)
Lemma time_dated_note env rel f content :
  Fs.read_text env f = Ok content ->
  text_date content ("vault/" ++ rel) = Ok None ->
  is_ok (Main.note_to_json env ("vault/" ++ rel) f)
  && is_ok (Lambda.note_to_json env ("/tmp/vault/" ++ rel) f) = false.
Proof.
  intros Hr Ht.
  pose proof (main_date_by_tiers env ("vault/" ++ rel) f content Hr) as Dm.
  pose proof (lambda_date_by_tiers env ("/tmp/vault/" ++ rel) f content Hr) as Dl.
  rewrite text_date_vault, Ht in Dl. rewrite Ht in Dm. cbn [bind] in Dm, Dl.
  unfold Main.note_to_json, Lambda.note_to_json. rewrite Hr. cbn [bind].
  rewrite Dm, Dl.
  pose proof (oldest_stat_date_never_both env (f_stat f)) as N.
  destruct (Main.oldest_stat_date env (f_stat f));
    destruct (Lambda.oldest_stat_date env (f_stat f)); cbn in *; congruence.
Qed.

End SameVault.

(** C2, amended: the two entry points run the same prune pass and the same
    convert loop over the extracted vault, each with the [note_to_json] of
    its file; [lambda_handler] then runs the collapse pass, which [main] does
    not, so [main] leaves each JSON file where its note was.  Whenever both
    get through the convert pass, the trees they have at that point are
    alike: the same directories and names at the same places, the JSON
    documents agreeing on [title], [created_date], [modified_date],
    [modified_time] and [content].  For a note that its front matter or a
    periodic rule dates, the two [note_to_json] raise the same exception or
    return records that agree on these keys; a note left to the times of its
    file is never converted by both.  [path] and [folder] are derived
    differently and need not agree. *)
Theorem C2_records_agree_but_for_path_and_folder :
  forall env,
    (* the same passes, and the collapse pass in [lambda_handler] only *)
    (forall vault,
       Main.main env vault
       = Flatten.convert_walk env (Main.note_to_json env) "vault"
           (Flatten.prune_walk vault)
       /\ Lambda.lambda_handler env vault
          = Flatten.and_then
              (Flatten.convert_walk env (Lambda.note_to_json env) "/tmp/vault"
                 (Flatten.prune_walk vault))
              Flatten.collapse_pass)
    (* after the convert pass the two trees are alike *)
    /\ (forall vault tm tl,
          Main.main env vault = (tm, None) ->
          Flatten.convert_walk env (Lambda.note_to_json env) "/tmp/vault"
            (Flatten.prune_walk vault) = (tl, None) ->
          alike "" tm tl
          /\ Lambda.lambda_handler env vault = Flatten.collapse_pass tl)
    (* [main] leaves each JSON file where its note was *)
    /\ (forall vault tm p f,
          unique_names (Flatten.prune_walk vault) = true ->
          Fs.lookup_path p (entries_of (Flatten.prune_walk vault)) = Some (File f) ->
          Py.endswith (last p "") ".md" = true ->
          Main.main env vault = (tm, None) ->
          Fs.lookup_path p (entries_of tm) = None
          /\ exists data,
               Main.note_to_json env (path_string "vault" p) f = Ok data
               /\ Fs.lookup_path (json_path p) (entries_of tm)
                  = Some (File (mkFile (new_stat env) (JsonDoc data))))
    (* a note dated by its text *)
    /\ (forall rel f content,
          Fs.read_text env f = Ok content ->
          text_date content ("vault/" ++ rel) <> Ok None ->
          (exists e,
             Main.note_to_json env ("vault/" ++ rel) f = Raise e
             /\ Lambda.note_to_json env ("/tmp/vault/" ++ rel) f = Raise e)
          \/ (exists rm rl,
                Main.note_to_json env ("vault/" ++ rel) f = Ok rm
                /\ Lambda.note_to_json env ("/tmp/vault/" ++ rel) f = Ok rl
                /\ same_but_for_path_and_folder rm rl))
    (* a note dated by the times of its file *)
    /\ (forall rel f content,
          Fs.read_text env f = Ok content ->
          text_date content ("vault/" ++ rel) = Ok None ->
          is_ok (Main.note_to_json env ("vault/" ++ rel) f)
          && is_ok (Lambda.note_to_json env ("/tmp/vault/" ++ rel) f) = false).
Proof.
  intros env. split; [|split; [|split; [|split]]].
  - intros vault. split; reflexivity.
  - intros vault tm tl Hm Hl. unfold Main.main in Hm. split.
    + apply (convert_walk_alike env (Main.note_to_json env) (Lambda.note_to_json env)
               vault_paths vault_paths_join (records_agree_below_the_vaults env)
               (Flatten.prune_walk vault) "" "vault" "/tmp/vault" tm tl);
        [right; left; now split | exact Hm | exact Hl].
    + unfold Lambda.lambda_handler. now rewrite Hl.
  - intros vault tm p f U Hp He Hm. unfold Main.main in Hm.
    exact (convert_walk_converts_every_note env (Main.note_to_json env) p
             (Flatten.prune_walk vault) "vault" tm f U Hp He Hm).
  - intros rel f content. apply text_dated_note.
  - intros rel f content. apply time_dated_note.
Qed.

Lemma C2_witness :
  alike "" (fst (Main.main env0 nested_vault))
    (fst (Flatten.convert_walk env0 (Lambda.note_to_json env0) "/tmp/vault"
            (Flatten.prune_walk nested_vault)))
  /\ Lambda.lambda_handler env0 nested_vault
     = Flatten.collapse_pass
         (fst (Flatten.convert_walk env0 (Lambda.note_to_json env0) "/tmp/vault"
                 (Flatten.prune_walk nested_vault))).
Proof.
  exact (proj1 (proj2 (C2_records_agree_but_for_path_and_folder env0))
           nested_vault _ _ eq_refl eq_refl).
Defined.

(** What the convert pass of [main] leaves of [failing_vault]: the note of
    [A] listed before the folder [sub] is converted, the exception of
    [A/sub/a.md] ends the run, and [B], not yet walked, keeps its note. *)
Example main_on_failing_vault :
  Main.main env0 failing_vault =
  (Dir [("A", Dir [("sub", Dir two_notes);
                   ("z.json",
                    File (mkFile (new_stat env0)
                      (JsonDoc (mkNoteRecord "z" "2021-07-23" "2022-03-01"
                                  "2022-03-01 12:00:00" "A" ""
                                  (match f_data dated_note with
                                   | Text s => s
                                   | _ => ""
                                   end)))))]);
        ("B", Dir [("w.md", File dated_note)])],
   Some IndexError).
Proof. reflexivity. Qed.
